(** * app.py: document reader, model gateway and task functions

    A shallow embedding of the non-UI logic of [app.py]: the three
    format readers and [parse_document], the model gateway
    [call_model_api], and the five task functions.

    Python strings are sequences of Unicode code points, and [len] and
    slicing count code points; they are modelled as lists of code
    points.  Calls that leave the program (the file system, PyPDF2,
    python-docx, the ZhipuAI client) are answered by an environment of
    oracles and recorded in a log, so that "the call was not attempted"
    is a statement about the log. *)

From Stdlib Require Import List NArith ZArith QArith String Ascii Bool Arith Lia.
Import ListNotations.
Close Scope Q_scope.

Set Implicit Arguments.

(** ** Python strings *)

Definition codepoint := N.
Definition pystr := list codepoint.

(** String literals of the source are written as UTF-8 text and decoded
    to code points here. [need] is the number of continuation bytes still
    expected and [acc] the bits gathered so far. *)
Fixpoint utf8_go (bs : list N) (need : nat) (acc : N) : pystr :=
  match bs with
  | [] => []
  | b :: rest =>
      match need with
      | O => if (b <? 128)%N then b :: utf8_go rest 0 0%N
             else if (b <? 224)%N then utf8_go rest 1 (N.land b 31)
             else if (b <? 240)%N then utf8_go rest 2 (N.land b 15)
             else utf8_go rest 3 (N.land b 7)
      | S O => (acc * 64 + N.land b 63)%N :: utf8_go rest 0 0%N
      | S n => utf8_go rest n (acc * 64 + N.land b 63)%N
      end
  end.

Definition lit (s : string) : pystr :=
  utf8_go (map N_of_ascii (list_ascii_of_string s)) 0 0%N.

(** The line break of a triple-quoted literal. *)
Definition NL : pystr := [10%N].

(** [len(s)] *)
Definition len (s : pystr) : nat := List.length s.

(** [s[:n]] for a non-negative [n] *)
Definition slice_to (n : nat) (s : pystr) : pystr := firstn n s.

(** [a == b] on strings *)
Fixpoint str_eqb (a b : pystr) : bool :=
  match a, b with
  | [], [] => true
  | x :: a', y :: b' => (x =? y)%N && str_eqb a' b'
  | _, _ => false
  end.

(** [s.endswith(suffix)] *)
Definition endswith (s suffix : pystr) : bool :=
  (len suffix <=? len s) && str_eqb (skipn (len s - len suffix) s) suffix.

(** [x in l] for a list of strings [l] *)
Definition str_in (x : pystr) (l : list pystr) : bool :=
  existsb (str_eqb x) l.

(** [sep.join(l)] *)
Fixpoint join (sep : pystr) (l : list pystr) : pystr :=
  match l with
  | [] => []
  | [x] => x
  | x :: rest => x ++ sep ++ join sep rest
  end.

(** Values of type [Optional[str]]: the file path and the API key can be
    [None] as well as a string. *)
Inductive pyval :=
| PyNone
| PyStr (s : pystr).

(** Truth value of an [Optional[str]], as tested by [not v]. *)
Definition truthy (v : pyval) : bool :=
  match v with
  | PyNone => false
  | PyStr [] => false
  | PyStr (_ :: _) => true
  end.

(** [v] occurs in [s] as a contiguous run of characters. *)
Definition occurs_in (v s : pystr) : Prop :=
  exists before after, s = before ++ v ++ after.

(** ** Exceptions and outcomes *)

(** An instance of [Exception]: its class name and what [str(e)] gives.
    Exceptions outside [Exception] (KeyboardInterrupt, SystemExit) are
    not raised by the calls modelled here. *)
Record exn := mkExn {
  exn_class : string;
  exn_str : pystr
}.

Inductive outcome (A : Type) :=
| Returns (a : A)
| Raises (e : exn).
Arguments Raises {A} e.

(** ** The world outside the program *)

Definition file := nat.
Definition page := nat.
Definition client := nat.

Record chat_message := mkMessage {
  role : pystr;
  content : pystr
}.

(** The keyword arguments of [client.chat.completions.create]. *)
Record chat_request := mkRequest {
  model : pystr;
  messages : list chat_message;
  max_tokens : Z;
  temperature : Q
}.

Record chat_choice := mkChoice {
  message : chat_message
}.

Record chat_response := mkResponse {
  choices : list chat_choice
}.

(** One entry of the log per call that leaves the program. *)
Inductive event :=
| EvOpen (path : pystr) (mode : string)
| EvRead (f : file)
| EvClose (f : file)
| EvPdfReader (f : file)
| EvExtractText (p : page)
| EvDocxDocument (path : pystr)
| EvZhipuAI (api_key : pystr)
| EvChatCreate (c : client) (req : chat_request)
| EvGateway (prompt : pystr) (budget : Z).

Definition world := list event.

(** What the outside answers, given everything that happened so far. *)
Record env := mkEnv {
  os_open : world -> pystr -> string -> outcome file;
  file_read : world -> file -> outcome pystr;
  file_close : world -> file -> outcome unit;
  pdf_pages : world -> file -> outcome (list page);
  page_extract_text : world -> page -> outcome (option pystr);
  docx_paragraphs : world -> pystr -> outcome (list pystr);
  zhipu_client : world -> pystr -> outcome client;
  chat_create : world -> client -> chat_request -> outcome chat_response
}.

(** ** The monad of the program: a log and an outcome *)

Definition M (A : Type) := world -> outcome A * world.

Definition ret {A} (a : A) : M A := fun w => (Returns a, w).

Definition raise {A} (e : exn) : M A := fun w => (Raises e, w).

Definition bind {A B} (m : M A) (k : A -> M B) : M B :=
  fun w =>
    match m w with
    | (Returns a, w') => k a w'
    | (Raises e, w') => (Raises e, w')
    end.

Declare Scope py_scope.
Delimit Scope py_scope with py.
Notation "x <- m ;; k" := (bind m (fun x => k))
  (at level 100, m at next level, right associativity) : py_scope.
Open Scope py_scope.

(** [try: body  except Exception as e: handler(e)] *)
Definition try_except {A} (body : M A) (handler : exn -> M A) : M A :=
  fun w =>
    match body w with
    | (Returns a, w') => (Returns a, w')
    | (Raises e, w') => handler e w'
    end.

(** A call that leaves the program: logged, then answered by the oracle
    from the log as it stood before the call. *)
Definition extcall {A} (ev : event) (oracle : world -> outcome A) : M A :=
  fun w => (oracle w, w ++ [ev]).

(** [l[0]] *)
Definition index0 {A} (l : list A) : M A :=
  match l with
  | x :: _ => ret x
  | [] => raise (mkExn "IndexError" (lit "list index out of range"))
  end.

(** ** Document reader *)

Section DocumentReader.

Variable E : env.

Definition py_open (path : pystr) (mode : string) : M file :=
  extcall (EvOpen path mode) (fun w => os_open E w path mode).

Definition py_read (f : file) : M pystr :=
  extcall (EvRead f) (fun w => file_read E w f).

Definition py_close (f : file) : M unit :=
  extcall (EvClose f) (fun w => file_close E w f).

(** [with open(path, mode) as f: body]: the file is closed when the body
    is left, whether it returned or raised; an exception of the close
    itself takes the place of the body's outcome. *)
Definition with_open {A} (path : pystr) (mode : string) (body : file -> M A) : M A :=
  f <- py_open path mode ;;
  fun w =>
    match body f w with
    | (r, w1) =>
        match py_close f w1 with
        | (Returns _, w2) => (r, w2)
        | (Raises e, w2) => (Raises e, w2)
        end
    end.

(** [PyPDF2.PdfReader(f).pages] *)
Definition PdfReader_pages (f : file) : M (list page) :=
  extcall (EvPdfReader f) (fun w => pdf_pages E w f).

(** [page.extract_text()], which gives a string or [None] *)
Definition extract_text (p : page) : M (option pystr) :=
  extcall (EvExtractText p) (fun w => page_extract_text E w p).

(** [x or ""] *)
Definition or_empty (x : option pystr) : pystr :=
  match x with
  | Some s => s
  | None => []
  end.

(** [for page in reader.pages: text += page.extract_text() or ""] *)
Fixpoint extract_pages (pages : list page) (text : pystr) : M pystr :=
  match pages with
  | [] => ret text
  | p :: rest =>
      t <- extract_text p ;;
      extract_pages rest (text ++ or_empty t)
  end.

Definition read_pdf_body (file_path : pystr) : M pystr :=
  with_open file_path "rb" (fun f =>
    pages <- PdfReader_pages f ;;
    extract_pages pages []).

Definition read_pdf (file_path : pystr) : M pystr :=
  try_except (read_pdf_body file_path)
    (fun e => ret (lit "PDF读取失败: " ++ exn_str e)).

(** [docx.Document(path).paragraphs], each paragraph by its [text] *)
Definition Document_paragraphs (path : pystr) : M (list pystr) :=
  extcall (EvDocxDocument path) (fun w => docx_paragraphs E w path).

Definition read_word_body (file_path : pystr) : M pystr :=
  paras <- Document_paragraphs file_path ;;
  ret (join NL paras).

Definition read_word (file_path : pystr) : M pystr :=
  try_except (read_word_body file_path)
    (fun e => ret (lit "Word读取失败: " ++ exn_str e)).

(** The file is opened with [encoding="utf-8", errors="ignore"]; what
    [f.read()] gives is the decoded text. *)
Definition read_txt_body (file_path : pystr) : M pystr :=
  with_open file_path "r" (fun f => py_read f).

Definition read_txt (file_path : pystr) : M pystr :=
  try_except (read_txt_body file_path)
    (fun e => ret (lit "TXT读取失败: " ++ exn_str e)).

(** The string held by a value that passed the [not file_path] test. *)
Definition str_of (v : pyval) : pystr :=
  match v with
  | PyStr s => s
  | PyNone => []
  end.

Definition empty_path_message : pystr := lit "文件路径为空".

Definition unsupported_format_message : pystr :=
  lit "不支持的文件格式，仅支持PDF(.pdf)、Word(.docx)、TXT(.txt)".

Definition parse_document (file_path : pyval) : M pystr :=
  if negb (truthy file_path) then ret empty_path_message
  else
    let p := str_of file_path in
    if endswith p (lit ".pdf") then read_pdf p
    else if endswith p (lit ".docx") then read_word p
    else if endswith p (lit ".txt") then read_txt p
    else ret unsupported_format_message.

End DocumentReader.

(** ** Model gateway *)

(** The two module-level constants of the configuration. *)
Record config := mkConfig {
  ZHIPU_API_KEY : pyval;
  ZHIPU_MODEL : pystr
}.

(** The configuration as the source has it. *)
Definition source_config : config :=
  mkConfig (PyStr (lit "YOUR-API-KEY")) (lit "glm-4-flash-250414").

Definition missing_key_message : pystr :=
  lit "请配置智谱开放平台API密钥（ZHIPU_API_KEY）".

Definition api_failure_marker : pystr := lit "API调用失败: ".

Section ModelGateway.

Variable C : config.
Variable E : env.

(** [ZhipuAI(api_key=key)] *)
Definition ZhipuAI (key : pystr) : M client :=
  extcall (EvZhipuAI key) (fun w => zhipu_client E w key).

(** [client.chat.completions.create(...)] *)
Definition chat_completions_create (c : client) (req : chat_request) : M chat_response :=
  extcall (EvChatCreate c req) (fun w => chat_create E w c req).

(** The request the gateway sends for a prompt and a token budget. *)
Definition request_of (prompt : pystr) (budget : Z) : chat_request :=
  mkRequest (ZHIPU_MODEL C) [mkMessage (lit "user") prompt] budget (7 # 10)%Q.

Definition call_model_api_body (prompt : pystr) (budget : Z) : M pystr :=
  c <- ZhipuAI (str_of (ZHIPU_API_KEY C)) ;;
  response <- chat_completions_create c (request_of prompt budget) ;;
  first <- index0 (choices response) ;;
  ret (content (message first)).

Definition call_model_api (prompt : pystr) (budget : Z) : M pystr :=
  if negb (truthy (ZHIPU_API_KEY C)) then ret missing_key_message
  else
    try_except (call_model_api_body prompt budget)
      (fun e => ret (api_failure_marker ++ exn_str e)).

End ModelGateway.

(** The default of the [max_tokens] parameter of [call_model_api]. *)
Definition default_max_tokens : Z := 1024.

(** ** Task functions *)

Section TaskFunctions.

(** Python looks the global name [call_model_api] up at each call, which
    is what lets a test put a stub in its place; the task functions take
    the gateway they call as a parameter. *)
Variable gateway : pystr -> Z -> M pystr.

Definition generate_summary (text : pystr) : M pystr :=
  if len text <? 50 then ret (lit "文档内容过短（少于50字），无法生成摘要")
  else
    let prompt :=
      lit "请总结以下文档的核心内容，要求简洁明了，不超过300字：" ++ NL ++
      lit "    " ++ slice_to 3000 text ++
      lit "  # 限制输入长度，避免超出模型上下文" ++ NL ++
      lit "    " in
    gateway prompt 300.

Definition extract_key_info (text : pystr) : M pystr :=
  if len text <? 50 then ret (lit "文档内容过短（少于50字），无法提取关键信息")
  else
    let prompt :=
      lit "请从以下文档中提取关键信息，包括主要观点、重要数据、核心结论等，用结构化的方式（如分点、表格）呈现：" ++ NL ++
      lit "    " ++ slice_to 3000 text ++ NL ++
      lit "    " in
    gateway prompt 500.

Definition document_qa (text question : pystr) : M pystr :=
  if (len question =? 0) then ret (lit "请输入问题")
  else if len text <? 50 then ret (lit "文档内容过短（少于50字），无法回答问题")
  else
    let prompt :=
      lit "基于以下文档内容，回答问题：" ++ question ++ NL ++
      lit "    文档内容：" ++ slice_to 3000 text ++ NL ++
      lit "    要求：只能根据文档内容回答，不编造信息；若文档无相关内容，需明确说明" ++ NL ++
      lit "    " in
    gateway prompt 500.

Definition supported_langs : list pystr :=
  [lit "中文"; lit "英文"; lit "日文"; lit "韩文"; lit "法文"; lit "德文"].

Definition translate_text (text target_lang : pystr) : M pystr :=
  if len text <? 10 then ret (lit "文本过短（少于10字），无法翻译")
  else if negb (str_in target_lang supported_langs) then
    ret (lit "不支持的目标语言：" ++ target_lang ++ lit "（支持：" ++
         join (lit ",") supported_langs ++ lit "）")
  else
    let prompt :=
      lit "请将以下文本翻译成" ++ target_lang ++ lit "，保持原意准确，语言流畅：" ++ NL ++
      lit "    " ++ slice_to 2000 text ++ NL ++
      lit "    " in
    gateway prompt 2000.

Definition supported_formats : list pystr :=
  [lit "Markdown"; lit "表格"; lit "项目符号列表"; lit "编号列表"].

Definition format_conversion (text target_format : pystr) : M pystr :=
  if len text <? 50 then ret (lit "文本过短（少于50字），无法转换格式")
  else if negb (str_in target_format supported_formats) then
    ret (lit "不支持的目标格式：" ++ target_format ++ lit "（支持：" ++
         join (lit ",") supported_formats ++ lit "）")
  else
    let prompt :=
      lit "请将以下文本转换为" ++ target_format ++ lit "格式，保持内容完整和结构清晰：" ++ NL ++
      lit "    " ++ slice_to 3000 text ++ NL ++
      lit "    " in
    gateway prompt 1000.

End TaskFunctions.

(** A stub gateway for tests: it records the prompt and the budget it was
    called with and answers with a fixed string. *)
Definition stub_gateway (reply : pystr) (prompt : pystr) (budget : Z) : M pystr :=
  fun w => (Returns reply, w ++ [EvGateway prompt budget]).

(** How often the stub gateway was called. *)
Fixpoint gateway_calls (w : world) : nat :=
  match w with
  | [] => 0
  | EvGateway _ _ :: rest => S (gateway_calls rest)
  | _ :: rest => gateway_calls rest
  end.

(** The prompts the stub gateway captured, oldest first. *)
Fixpoint captured_prompts (w : world) : list pystr :=
  match w with
  | [] => []
  | EvGateway prompt _ :: rest => prompt :: captured_prompts rest
  | _ :: rest => captured_prompts rest
  end.

(** How often the chat-completion endpoint was called or a client built. *)
Fixpoint api_attempts (w : world) : nat :=
  match w with
  | [] => 0
  | EvZhipuAI _ :: rest => S (api_attempts rest)
  | EvChatCreate _ _ :: rest => S (api_attempts rest)
  | _ :: rest => api_attempts rest
  end.

(** ** The instruction text around the document slot

    What each prompt holds before and after the embedded document text.
    None of it depends on the document; for [document_qa],
    [translate_text] and [format_conversion] it holds the question or
    the target given with the call. *)

Definition leftover_comment : pystr := lit "  # 限制输入长度，避免超出模型上下文".

Definition summary_before : pystr :=
  lit "请总结以下文档的核心内容，要求简洁明了，不超过300字：" ++ NL ++ lit "    ".

Definition summary_after : pystr := leftover_comment ++ NL ++ lit "    ".

Definition key_info_before : pystr :=
  lit "请从以下文档中提取关键信息，包括主要观点、重要数据、核心结论等，用结构化的方式（如分点、表格）呈现：" ++ NL ++
  lit "    ".

Definition key_info_after : pystr := NL ++ lit "    ".

Definition qa_before (question : pystr) : pystr :=
  lit "基于以下文档内容，回答问题：" ++ question ++ NL ++ lit "    文档内容：".

Definition qa_after : pystr :=
  NL ++ lit "    要求：只能根据文档内容回答，不编造信息；若文档无相关内容，需明确说明" ++ NL ++
  lit "    ".

Definition translate_before (target_lang : pystr) : pystr :=
  lit "请将以下文本翻译成" ++ target_lang ++ lit "，保持原意准确，语言流畅：" ++ NL ++
  lit "    ".

Definition translate_after : pystr := NL ++ lit "    ".

Definition convert_before (target_format : pystr) : pystr :=
  lit "请将以下文本转换为" ++ target_format ++ lit "格式，保持内容完整和结构清晰：" ++ NL ++
  lit "    ".

Definition convert_after : pystr := NL ++ lit "    ".

(** [prompt] is the instruction text [before] and [after] around the
    first [min (len text) budget] characters of [text], with the lengths
    that follow from it. *)
Definition truncated_into (budget : nat) (before after text prompt : pystr) : Prop :=
  prompt = before ++ slice_to (Nat.min (len text) budget) text ++ after /\
  len prompt = len before + len after + Nat.min (len text) budget /\
  len prompt <= budget + (len before + len after).

(** ** Sample inputs and environments *)

(** ["a" * 4000], longer than every character budget *)
Definition sample_long_text : pystr := repeat 97%N 4000.

(** ["a" * 60] *)
Definition sample_text : pystr := repeat 97%N 60.

Definition sample_short_text : pystr := lit "太短".

Definition sample_question : pystr := lit "主题是什么？".

Definition sample_reply : pystr := lit "OK-123".

Definition FileNotFoundError (path : pystr) : exn :=
  mkExn "FileNotFoundError"
    (lit "[Errno 2] No such file or directory: '" ++ path ++ lit "'").

Definition PackageNotFoundError (path : pystr) : exn :=
  mkExn "PackageNotFoundError" (lit "Package not found at '" ++ path ++ lit "'").

Definition AuthenticationError : exn :=
  mkExn "APIAuthenticationError" (lit "Error code: 401").

Definition TimeoutError : exn :=
  mkExn "APITimeoutError" (lit "Request timed out.").

(** No file exists and the provider rejects the key. *)
Definition hostile_env : env :=
  mkEnv (fun _ path _ => Raises (FileNotFoundError path))
        (fun _ _ => Returns [])
        (fun _ _ => Returns tt)
        (fun _ _ => Returns [])
        (fun _ _ => Returns None)
        (fun _ path => Raises (PackageNotFoundError path))
        (fun _ _ => Raises AuthenticationError)
        (fun _ _ _ => Raises TimeoutError).

(** Files open and hold [body]; the provider answers with [answers], one
    choice per element. *)
Definition friendly_env (body : pystr) (answers : list pystr) : env :=
  mkEnv (fun _ _ _ => Returns 3)
        (fun _ _ => Returns body)
        (fun _ _ => Returns tt)
        (fun _ _ => Returns [0; 1])
        (fun _ _ => Returns (Some body))
        (fun _ _ => Returns [body; body])
        (fun _ _ => Returns 7)
        (fun _ _ _ =>
           Returns (mkResponse
             (map (fun a => mkChoice (mkMessage (lit "assistant") a)) answers))).

(** The client is built, the request then times out. *)
Definition timeout_env : env :=
  mkEnv (fun _ _ _ => Returns 3)
        (fun _ _ => Returns [])
        (fun _ _ => Returns tt)
        (fun _ _ => Returns [])
        (fun _ _ => Returns None)
        (fun _ _ => Returns [])
        (fun _ _ => Returns 7)
        (fun _ _ _ => Raises TimeoutError).

(** ** The form: [load_document] and the bindings of [main] *)

(** What the upload control hands to [load_document]: [None], or a value
    with a truth value of its own and a [name]. *)
Record upload := mkUpload {
  upload_truth : bool;
  upload_name : pyval
}.

(** The choices and the initial values of the two dropdowns. *)
Definition target_lang_choices : list pystr :=
  [lit "中文"; lit "英文"; lit "日文"; lit "韩文"; lit "法文"; lit "德文"].

Definition target_lang_value : pystr := lit "中文".

Definition target_format_choices : list pystr :=
  [lit "Markdown"; lit "表格"; lit "项目符号列表"; lit "编号列表"].

Definition target_format_value : pystr := lit "Markdown".

(** The values held by the components of the form. *)
Record form := mkForm {
  file_input : option upload;
  question_input : pystr;
  target_lang : pystr;
  target_format : pystr;
  doc_content : pystr;
  result_output : pystr
}.

Definition set_doc_content (s : form) (v : pystr) : form :=
  mkForm (file_input s) (question_input s) (target_lang s) (target_format s)
         v (result_output s).

Definition set_result_output (s : form) (v : pystr) : form :=
  mkForm (file_input s) (question_input s) (target_lang s) (target_format s)
         (doc_content s) v.

Inductive button :=
| load_btn
| summary_btn
| key_info_btn
| qa_btn
| translate_btn
| format_btn.

Section Form.

Variable E : env.
Variable gateway : pystr -> Z -> M pystr.

Definition load_document (file : option upload) : M pystr :=
  match file with
  | None => ret (lit "请上传文档")
  | Some f =>
      if negb (upload_truth f) then ret (lit "请上传文档")
      else parse_document E (upload_name f)
  end.

(** [btn.click(fn, inputs, outputs)]: a click runs [fn] on the values of
    the input components and stores what it returns in the output
    component. *)
Definition click (b : button) (s : form) : M form :=
  match b with
  | load_btn =>
      v <- load_document (file_input s) ;; ret (set_doc_content s v)
  | summary_btn =>
      v <- generate_summary gateway (doc_content s) ;; ret (set_result_output s v)
  | key_info_btn =>
      v <- extract_key_info gateway (doc_content s) ;; ret (set_result_output s v)
  | qa_btn =>
      v <- document_qa gateway (doc_content s) (question_input s) ;;
      ret (set_result_output s v)
  | translate_btn =>
      v <- translate_text gateway (doc_content s) (target_lang s) ;;
      ret (set_result_output s v)
  | format_btn =>
      v <- format_conversion gateway (doc_content s) (target_format s) ;;
      ret (set_result_output s v)
  end.

(** A sequence of clicks, one after the other. *)
Fixpoint clicks (bs : list button) (s : form) : M form :=
  match bs with
  | [] => ret s
  | b :: rest => s' <- click b s ;; clicks rest s'
  end.

End Form.

(** A PDF whose pages give [texts], page by page; text files hold
    [body]. *)
Definition pdf_env (texts : list (outcome (option pystr))) (body : pystr) : env :=
  mkEnv (fun _ _ _ => Returns 3)
        (fun _ _ => Returns body)
        (fun _ _ => Returns tt)
        (fun _ _ => Returns (seq 0 (List.length texts)))
        (fun _ p => nth p texts (Returns None))
        (fun _ _ => Returns [])
        (fun _ _ => Returns 7)
        (fun _ _ _ => Returns (mkResponse [])).

Definition ExtractionError : exn :=
  mkExn "PdfReadError" (lit "EOF marker not found").

(** The form as it starts, with [file] uploaded and a question typed. *)
Definition sample_form (file : option upload) : form :=
  mkForm file sample_question target_lang_value target_format_value [] [].

(** ** Kinds of log entries *)

(** The entries a reader may log for [path]: opening that path, and work
    on the file and its pages. *)
Definition reader_event (path : pystr) (ev : event) : bool :=
  match ev with
  | EvOpen p _ => str_eqb p path
  | EvDocxDocument p => str_eqb p path
  | EvRead _ | EvClose _ | EvPdfReader _ | EvExtractText _ => true
  | EvZhipuAI _ | EvChatCreate _ _ | EvGateway _ _ => false
  end.

Definition open_or_close (ev : event) : bool :=
  match ev with
  | EvOpen _ _ | EvClose _ => true
  | _ => false
  end.

(** [m] only appends to the log, and only entries that satisfy [P]. *)
Definition logs_only (P : event -> bool) {A} (m : M A) : Prop :=
  forall w, exists delta, snd (m w) = w ++ delta /\ forallb P delta = true.

(** ** Strings: basic facts *)

Lemma str_eqb_eq (a b : pystr) : str_eqb a b = true <-> a = b.
Proof.
  revert b; induction a as [|x a IH]; intros [|y b]; simpl;
    try (split; [discriminate | discriminate]); try tauto.
  rewrite andb_true_iff, N.eqb_eq, IH.
  split; [intros [-> ->]; reflexivity | intros H; inversion H; auto].
Qed.

Lemma str_eqb_refl (a : pystr) : str_eqb a a = true.
Proof. apply str_eqb_eq; reflexivity. Qed.

Lemma str_in_In (x : pystr) (l : list pystr) : str_in x l = true <-> In x l.
Proof.
  unfold str_in; rewrite existsb_exists; split.
  - intros (y & Hy & Heq); apply str_eqb_eq in Heq; subst; assumption.
  - intros H; exists x; split; [assumption | apply str_eqb_refl].
Qed.

Lemma str_in_not_In (x : pystr) (l : list pystr) : ~ In x l -> str_in x l = false.
Proof.
  intros H; destruct (str_in x l) eqn:Hin; [|reflexivity].
  apply str_in_In in Hin; contradiction.
Qed.

Lemma len_app (a b : pystr) : len (a ++ b) = len a + len b.
Proof. unfold len; apply length_app. Qed.

Lemma len_slice_to (n : nat) (s : pystr) : len (slice_to n s) = Nat.min (len s) n.
Proof. unfold len, slice_to; rewrite length_firstn; apply Nat.min_comm. Qed.

Lemma slice_to_min (n : nat) (s : pystr) :
  slice_to (Nat.min (len s) n) s = slice_to n s.
Proof.
  unfold slice_to, len.
  destruct (Nat.le_ge_cases (List.length s) n) as [Hle | Hge].
  - rewrite Nat.min_l by assumption.
    rewrite firstn_all, firstn_all2 by assumption; reflexivity.
  - rewrite Nat.min_r by assumption; reflexivity.
Qed.

Lemma truncated_into_intro (budget : nat) (before after text : pystr) :
  truncated_into budget before after text (before ++ slice_to budget text ++ after).
Proof.
  unfold truncated_into; rewrite slice_to_min; split; [reflexivity|].
  assert (Hlen : len (before ++ slice_to budget text ++ after)
                 = len before + len after + Nat.min (len text) budget).
  { rewrite !len_app, len_slice_to; lia. }
  split; [exact Hlen | rewrite Hlen; lia].
Qed.

Lemma occurs_in_middle (a v b : pystr) : occurs_in v (a ++ v ++ b).
Proof. exists a, b; reflexivity. Qed.

(** ** Task functions: what each does on either side of its validation *)

Section TaskFacts.

Variable gateway : pystr -> Z -> M pystr.

Lemma generate_summary_short (text : pystr) :
  len text < 50 ->
  generate_summary gateway text = ret (lit "文档内容过短（少于50字），无法生成摘要").
Proof.
  intros H; unfold generate_summary.
  destruct (Nat.ltb_spec (len text) 50); [reflexivity | lia].
Qed.

Lemma generate_summary_valid (text : pystr) :
  50 <= len text ->
  generate_summary gateway text
  = gateway (summary_before ++ slice_to 3000 text ++ summary_after) 300.
Proof.
  intros H; unfold generate_summary.
  destruct (Nat.ltb_spec (len text) 50); [lia|].
  unfold summary_before, summary_after, leftover_comment.
  rewrite <- !app_assoc; reflexivity.
Qed.

Lemma extract_key_info_short (text : pystr) :
  len text < 50 ->
  extract_key_info gateway text = ret (lit "文档内容过短（少于50字），无法提取关键信息").
Proof.
  intros H; unfold extract_key_info.
  destruct (Nat.ltb_spec (len text) 50); [reflexivity | lia].
Qed.

Lemma extract_key_info_valid (text : pystr) :
  50 <= len text ->
  extract_key_info gateway text
  = gateway (key_info_before ++ slice_to 3000 text ++ key_info_after) 500.
Proof.
  intros H; unfold extract_key_info.
  destruct (Nat.ltb_spec (len text) 50); [lia|].
  unfold key_info_before, key_info_after.
  rewrite <- !app_assoc; reflexivity.
Qed.

Lemma document_qa_no_question (text : pystr) :
  document_qa gateway text [] = ret (lit "请输入问题").
Proof. reflexivity. Qed.

Lemma document_qa_short (text question : pystr) :
  question <> [] -> len text < 50 ->
  document_qa gateway text question = ret (lit "文档内容过短（少于50字），无法回答问题").
Proof.
  intros Hq H; unfold document_qa.
  destruct question as [|c q]; [contradiction|].
  change (len (c :: q) =? 0) with false; cbv iota.
  destruct (Nat.ltb_spec (len text) 50); [reflexivity | lia].
Qed.

Lemma document_qa_valid (text question : pystr) :
  question <> [] -> 50 <= len text ->
  document_qa gateway text question
  = gateway (qa_before question ++ slice_to 3000 text ++ qa_after) 500.
Proof.
  intros Hq H; unfold document_qa.
  destruct question as [|c q]; [contradiction|].
  change (len (c :: q) =? 0) with false; cbv iota.
  destruct (Nat.ltb_spec (len text) 50); [lia|].
  unfold qa_before, qa_after.
  rewrite <- !app_assoc; reflexivity.
Qed.

Lemma translate_text_short (text target_lang : pystr) :
  len text < 10 ->
  translate_text gateway text target_lang = ret (lit "文本过短（少于10字），无法翻译").
Proof.
  intros H; unfold translate_text.
  destruct (Nat.ltb_spec (len text) 10); [reflexivity | lia].
Qed.

Lemma translate_text_unsupported (text target_lang : pystr) :
  10 <= len text -> ~ In target_lang supported_langs ->
  translate_text gateway text target_lang
  = ret (lit "不支持的目标语言：" ++ target_lang ++ lit "（支持：" ++
         join (lit ",") supported_langs ++ lit "）").
Proof.
  intros H Hin; unfold translate_text.
  destruct (Nat.ltb_spec (len text) 10); [lia|].
  rewrite (str_in_not_In _ _ Hin); reflexivity.
Qed.

Lemma translate_text_valid (text target_lang : pystr) :
  10 <= len text -> In target_lang supported_langs ->
  translate_text gateway text target_lang
  = gateway (translate_before target_lang ++ slice_to 2000 text ++ translate_after) 2000.
Proof.
  intros H Hin; unfold translate_text.
  destruct (Nat.ltb_spec (len text) 10); [lia|].
  rewrite (proj2 (str_in_In _ _) Hin); cbv beta iota delta [negb].
  unfold translate_before, translate_after.
  rewrite <- !app_assoc; reflexivity.
Qed.

Lemma format_conversion_short (text target_format : pystr) :
  len text < 50 ->
  format_conversion gateway text target_format = ret (lit "文本过短（少于50字），无法转换格式").
Proof.
  intros H; unfold format_conversion.
  destruct (Nat.ltb_spec (len text) 50); [reflexivity | lia].
Qed.

Lemma format_conversion_unsupported (text target_format : pystr) :
  50 <= len text -> ~ In target_format supported_formats ->
  format_conversion gateway text target_format
  = ret (lit "不支持的目标格式：" ++ target_format ++ lit "（支持：" ++
         join (lit ",") supported_formats ++ lit "）").
Proof.
  intros H Hin; unfold format_conversion.
  destruct (Nat.ltb_spec (len text) 50); [lia|].
  rewrite (str_in_not_In _ _ Hin); reflexivity.
Qed.

Lemma format_conversion_valid (text target_format : pystr) :
  50 <= len text -> In target_format supported_formats ->
  format_conversion gateway text target_format
  = gateway (convert_before target_format ++ slice_to 3000 text ++ convert_after) 1000.
Proof.
  intros H Hin; unfold format_conversion.
  destruct (Nat.ltb_spec (len text) 50); [lia|].
  rewrite (proj2 (str_in_In _ _) Hin); cbv beta iota delta [negb].
  unfold convert_before, convert_after.
  rewrite <- !app_assoc; reflexivity.
Qed.

End TaskFacts.

(** ** Occurrences in a string *)






(** ** Claims about the task functions *)

(** C2. For each task function and each input that fails its validation
    (text below the minimum length, an empty question, a target outside
    the allow-list), the function returns its error string and leaves the
    log as it was, whatever the gateway is: the gateway is not called. *)
Theorem validation_short_circuits
    (gw : pystr -> Z -> M pystr) (text question target : pystr) (w : world) :
  (len text < 50 ->
   generate_summary gw text w
   = (Returns (lit "文档内容过短（少于50字），无法生成摘要"), w)) /\
  (len text < 50 ->
   extract_key_info gw text w
   = (Returns (lit "文档内容过短（少于50字），无法提取关键信息"), w)) /\
  (question = [] ->
   document_qa gw text question w = (Returns (lit "请输入问题"), w)) /\
  (question <> [] -> len text < 50 ->
   document_qa gw text question w
   = (Returns (lit "文档内容过短（少于50字），无法回答问题"), w)) /\
  (len text < 10 ->
   translate_text gw text target w
   = (Returns (lit "文本过短（少于10字），无法翻译"), w)) /\
  (10 <= len text -> ~ In target supported_langs ->
   translate_text gw text target w
   = (Returns (lit "不支持的目标语言：" ++ target ++ lit "（支持：" ++
               join (lit ",") supported_langs ++ lit "）"), w)) /\
  (len text < 50 ->
   format_conversion gw text target w
   = (Returns (lit "文本过短（少于50字），无法转换格式"), w)) /\
  (50 <= len text -> ~ In target supported_formats ->
   format_conversion gw text target w
   = (Returns (lit "不支持的目标格式：" ++ target ++ lit "（支持：" ++
               join (lit ",") supported_formats ++ lit "）"), w)).
Proof.
  repeat apply conj; intros.
  - rewrite generate_summary_short by assumption; reflexivity.
  - rewrite extract_key_info_short by assumption; reflexivity.
  - subst question; reflexivity.
  - rewrite document_qa_short by assumption; reflexivity.
  - rewrite translate_text_short by assumption; reflexivity.
  - rewrite translate_text_unsupported by assumption; reflexivity.
  - rewrite format_conversion_short by assumption; reflexivity.
  - rewrite format_conversion_unsupported by assumption; reflexivity.
Qed.

(** C3. For each task function and each valid input, the outcome of the
    one gateway call is the outcome of the task function: when the
    gateway returns [s], the task function returns [s], and the log is
    the one the gateway left. *)
Theorem gateway_result_passed_through
    (gw : pystr -> Z -> M pystr) (text question target s : pystr) (w w' : world) :
  (50 <= len text ->
   gw (summary_before ++ slice_to 3000 text ++ summary_after) 300%Z w = (Returns s, w') ->
   generate_summary gw text w = (Returns s, w')) /\
  (50 <= len text ->
   gw (key_info_before ++ slice_to 3000 text ++ key_info_after) 500%Z w = (Returns s, w') ->
   extract_key_info gw text w = (Returns s, w')) /\
  (question <> [] -> 50 <= len text ->
   gw (qa_before question ++ slice_to 3000 text ++ qa_after) 500%Z w = (Returns s, w') ->
   document_qa gw text question w = (Returns s, w')) /\
  (In target supported_langs -> 10 <= len text ->
   gw (translate_before target ++ slice_to 2000 text ++ translate_after) 2000%Z w
   = (Returns s, w') ->
   translate_text gw text target w = (Returns s, w')) /\
  (In target supported_formats -> 50 <= len text ->
   gw (convert_before target ++ slice_to 3000 text ++ convert_after) 1000%Z w
   = (Returns s, w') ->
   format_conversion gw text target w = (Returns s, w')).
Proof.
  repeat apply conj; intros.
  - rewrite generate_summary_valid by assumption; assumption.
  - rewrite extract_key_info_valid by assumption; assumption.
  - rewrite document_qa_valid by assumption; assumption.
  - rewrite translate_text_valid by assumption; assumption.
  - rewrite format_conversion_valid by assumption; assumption.
Qed.


(** C9. For every valid input the prompt that [generate_summary] hands to
    the gateway holds, right after the embedded document text, the
    characters of the source comment that sits inside the f-string; they
    are 20 of the 58 characters of the prompt's instruction text. *)
Theorem summary_prompt_holds_comment (text : pystr) :
  50 <= len text ->
  exists prompt,
    (forall gw, generate_summary gw text = gw prompt 300%Z) /\
    prompt = summary_before ++ slice_to 3000 text ++
             lit "  # 限制输入长度，避免超出模型上下文" ++ NL ++ lit "    " /\
    len (lit "  # 限制输入长度，避免超出模型上下文") = 20 /\
    len prompt = 58 + Nat.min (len text) 3000.
Proof.
  intros H; exists (summary_before ++ slice_to 3000 text ++ summary_after).
  split; [|split; [|split]].
  - intros gw; exact (generate_summary_valid gw text H).
  - reflexivity.
  - vm_compute; reflexivity.
  - rewrite !len_app, len_slice_to.
    replace (len summary_before) with 33 by (vm_compute; reflexivity).
    replace (len summary_after) with 25 by (vm_compute; reflexivity).
    lia.
Qed.

(** *** Sample runs of the task functions *)

Lemma sample_long_text_valid : 50 <= len sample_long_text.
Proof. apply Nat.leb_le; vm_compute; reflexivity. Defined.

Lemma sample_text_valid : 50 <= len sample_text.
Proof. apply Nat.leb_le; vm_compute; reflexivity. Defined.

Lemma sample_short_text_short : len sample_short_text < 10.
Proof. apply Nat.ltb_lt; vm_compute; reflexivity. Defined.

Lemma sample_question_given : sample_question <> [].
Proof. vm_compute; discriminate. Defined.

Lemma english_supported : In (lit "英文") supported_langs.
Proof. apply str_in_In; vm_compute; reflexivity. Defined.

Lemma table_supported : In (lit "表格") supported_formats.
Proof. apply str_in_In; vm_compute; reflexivity. Defined.

Lemma klingon_unsupported : ~ In (lit "克林贡语") supported_langs.
Proof. intros H; apply str_in_In in H; vm_compute in H; discriminate. Defined.

Lemma pdf_unsupported : ~ In (lit "PDF") supported_formats.
Proof. intros H; apply str_in_In in H; vm_compute in H; discriminate. Defined.

Lemma validation_short_circuits_witness :
  let gw := stub_gateway sample_reply in
  generate_summary gw sample_short_text []
  = (Returns (lit "文档内容过短（少于50字），无法生成摘要"), []) /\
  extract_key_info gw sample_short_text []
  = (Returns (lit "文档内容过短（少于50字），无法提取关键信息"), []) /\
  document_qa gw sample_text [] [] = (Returns (lit "请输入问题"), []) /\
  document_qa gw sample_short_text sample_question []
  = (Returns (lit "文档内容过短（少于50字），无法回答问题"), []) /\
  translate_text gw sample_short_text (lit "英文") []
  = (Returns (lit "文本过短（少于10字），无法翻译"), []) /\
  translate_text gw sample_text (lit "克林贡语") []
  = (Returns (lit "不支持的目标语言：克林贡语（支持：中文,英文,日文,韩文,法文,德文）"), []) /\
  format_conversion gw sample_short_text (lit "表格") []
  = (Returns (lit "文本过短（少于50字），无法转换格式"), []) /\
  format_conversion gw sample_text (lit "PDF") []
  = (Returns (lit "不支持的目标格式：PDF（支持：Markdown,表格,项目符号列表,编号列表）"), []).
Proof.
  intros gw.
  assert (Hshort : len sample_short_text < 50)
    by (apply Nat.ltb_lt; vm_compute; reflexivity).
  assert (H10 : 10 <= len sample_text)
    by (apply Nat.leb_le; vm_compute; reflexivity).
  destruct (validation_short_circuits gw sample_short_text sample_question (lit "英文") [])
    as (H1 & H2 & _ & H4 & H5 & _ & H7 & _).
  destruct (validation_short_circuits gw sample_text [] (lit "克林贡语") [])
    as (_ & _ & H3 & _ & _ & H6 & _).
  destruct (validation_short_circuits gw sample_text [] (lit "PDF") [])
    as (_ & _ & _ & _ & _ & _ & _ & H8).
  split; [exact (H1 Hshort)|].
  split; [exact (H2 Hshort)|].
  split; [exact (H3 eq_refl)|].
  split; [exact (H4 sample_question_given Hshort)|].
  split; [exact (H5 sample_short_text_short)|].
  split; [exact (H6 H10 klingon_unsupported)|].
  split; [exact (H7 Hshort)|].
  exact (H8 sample_text_valid pdf_unsupported).
Defined.

Lemma gateway_result_passed_through_witness :
  let gw := stub_gateway sample_reply in
  (exists w', generate_summary gw sample_text [] = (Returns (lit "OK-123"), w')) /\
  (exists w', extract_key_info gw sample_text [] = (Returns (lit "OK-123"), w')) /\
  (exists w', document_qa gw sample_text sample_question []
              = (Returns (lit "OK-123"), w')) /\
  (exists w', translate_text gw sample_text (lit "英文") []
              = (Returns (lit "OK-123"), w')) /\
  (exists w', format_conversion gw sample_text (lit "表格") []
              = (Returns (lit "OK-123"), w')).
Proof.
  intros gw.
  assert (H10 : 10 <= len sample_text)
    by (apply Nat.leb_le; vm_compute; reflexivity).
  split; [|split; [|split; [|split]]].
  - eexists.
    exact (proj1 (gateway_result_passed_through gw sample_text sample_question
                    (lit "英文") sample_reply [] _)
             sample_text_valid eq_refl).
  - eexists.
    exact (proj1 (proj2 (gateway_result_passed_through gw sample_text sample_question
                    (lit "英文") sample_reply [] _))
             sample_text_valid eq_refl).
  - eexists.
    exact (proj1 (proj2 (proj2 (gateway_result_passed_through gw sample_text
                    sample_question (lit "英文") sample_reply [] _)))
             sample_question_given sample_text_valid eq_refl).
  - eexists.
    exact (proj1 (proj2 (proj2 (proj2 (gateway_result_passed_through gw sample_text
                    sample_question (lit "英文") sample_reply [] _))))
             english_supported H10 eq_refl).
  - eexists.
    exact (proj2 (proj2 (proj2 (proj2 (gateway_result_passed_through gw sample_text
                    sample_question (lit "表格") sample_reply [] _))))
             table_supported sample_text_valid eq_refl).
Defined.


Lemma summary_prompt_holds_comment_witness :
  exists prompt,
    (forall gw, generate_summary gw sample_long_text = gw prompt 300%Z) /\
    prompt = summary_before ++ slice_to 3000 sample_long_text ++
             lit "  # 限制输入长度，避免超出模型上下文" ++ NL ++ lit "    " /\
    len (lit "  # 限制输入长度，避免超出模型上下文") = 20 /\
    len prompt = 58 + Nat.min (len sample_long_text) 3000.
Proof. exact (summary_prompt_holds_comment sample_long_text sample_long_text_valid). Defined.

(** ** Exceptions: what [try_except] does *)

Lemma try_except_returns {A} (body : M A) (handler : exn -> M A) w a w' :
  body w = (Returns a, w') -> try_except body handler w = (Returns a, w').
Proof. intros H; unfold try_except; rewrite H; reflexivity. Qed.

Lemma try_except_raises {A} (body : M A) (handler : exn -> M A) w e w' :
  body w = (Raises e, w') -> try_except body handler w = handler e w'.
Proof. intros H; unfold try_except; rewrite H; reflexivity. Qed.

Lemma returns_inj {A} (a b : A) (w w' : world) :
  (Returns a, w) = (Returns b, w') -> a = b.
Proof. intros H; inversion H; reflexivity. Qed.

(** A handler that only returns makes the whole statement return. *)
Lemma try_except_total {A} (body : M A) (f : exn -> A) w :
  exists a w', try_except body (fun e => ret (f e)) w = (Returns a, w').
Proof.
  unfold try_except; destruct (body w) as [[a | e] w1].
  - exists a, w1; reflexivity.
  - exists (f e), w1; reflexivity.
Qed.

(** ** Suffixes *)

Lemma endswith_spec (s suffix : pystr) :
  endswith s suffix = true <-> exists stem, s = stem ++ suffix.
Proof.
  unfold endswith, len; rewrite andb_true_iff, Nat.leb_le, str_eqb_eq; split.
  - intros [Hle Hskip].
    exists (firstn (List.length s - List.length suffix) s).
    rewrite <- (firstn_skipn (List.length s - List.length suffix) s) at 1.
    f_equal; exact Hskip.
  - intros [stem ->]; rewrite length_app; split; [lia|].
    replace (List.length stem + List.length suffix - List.length suffix)
      with (List.length stem + 0) by lia.
    rewrite skipn_app, Nat.add_0_r, skipn_all.
    replace (List.length stem - List.length stem) with 0 by lia.
    reflexivity.
Qed.

(** The last character of a string, if it has one. *)
Lemma endswith_last (s suffix : pystr) (c : codepoint) :
  endswith s suffix = true ->
  hd_error (rev suffix) = Some c -> hd_error (rev s) = Some c.
Proof.
  intros Hend Hc; apply endswith_spec in Hend as [stem ->].
  rewrite rev_app_distr.
  destruct (rev suffix) as [|x r]; [discriminate|exact Hc].
Qed.

Lemma endswith_exclusive (s a b : pystr) (x y : codepoint) :
  hd_error (rev a) = Some x -> hd_error (rev b) = Some y -> x <> y ->
  endswith s a = true -> endswith s b = false.
Proof.
  intros Ha Hb Hxy Hend.
  destruct (endswith s b) eqn:Hend'; [|reflexivity].
  pose proof (endswith_last _ _ Hend Ha) as H1.
  pose proof (endswith_last _ _ Hend' Hb) as H2.
  rewrite H1 in H2; injection H2 as ->; contradiction.
Qed.

Lemma docx_not_pdf (s : pystr) :
  endswith s (lit ".docx") = true -> endswith s (lit ".pdf") = false.
Proof.
  apply (@endswith_exclusive s (lit ".docx") (lit ".pdf") 120%N 102%N);
    [reflexivity | reflexivity | discriminate].
Qed.

Lemma txt_not_pdf (s : pystr) :
  endswith s (lit ".txt") = true -> endswith s (lit ".pdf") = false.
Proof.
  apply (@endswith_exclusive s (lit ".txt") (lit ".pdf") 116%N 102%N);
    [reflexivity | reflexivity | discriminate].
Qed.

Lemma txt_not_docx (s : pystr) :
  endswith s (lit ".txt") = true -> endswith s (lit ".docx") = false.
Proof.
  apply (@endswith_exclusive s (lit ".txt") (lit ".docx") 116%N 120%N);
    [reflexivity | reflexivity | discriminate].
Qed.

(** ** Document reader: the path test and the dispatch *)

Section ReaderFacts.

Variable E : env.

Lemma parse_document_falsy (v : pyval) :
  truthy v = false -> parse_document E v = ret empty_path_message.
Proof. intros H; unfold parse_document; rewrite H; reflexivity. Qed.

Lemma parse_document_truthy (p : pystr) :
  p <> [] ->
  parse_document E (PyStr p)
  = if endswith p (lit ".pdf") then read_pdf E p
    else if endswith p (lit ".docx") then read_word E p
    else if endswith p (lit ".txt") then read_txt E p
    else ret unsupported_format_message.
Proof.
  intros Hp; destruct p as [|c p]; [contradiction|reflexivity].
Qed.

Lemma messages_differ : empty_path_message <> unsupported_format_message.
Proof. vm_compute; discriminate. Qed.

End ReaderFacts.

(** ** Claims about the document reader *)

(** C5. Whatever exception the body of a format reader raises, the
    reader returns the string made of its marker (PDF, Word or TXT
    followed by the failure text) and of [str(e)]; and every reader
    returns a string, for every path, environment and log. *)
Theorem readers_turn_exceptions_into_strings (E : env) (file_path : pystr) (w : world) :
  (forall e w', read_pdf_body E file_path w = (Raises e, w') ->
     read_pdf E file_path w = (Returns (lit "PDF读取失败: " ++ exn_str e), w')) /\
  (forall e w', read_word_body E file_path w = (Raises e, w') ->
     read_word E file_path w = (Returns (lit "Word读取失败: " ++ exn_str e), w')) /\
  (forall e w', read_txt_body E file_path w = (Raises e, w') ->
     read_txt E file_path w = (Returns (lit "TXT读取失败: " ++ exn_str e), w')) /\
  (exists s w', read_pdf E file_path w = (Returns s, w')) /\
  (exists s w', read_word E file_path w = (Returns s, w')) /\
  (exists s w', read_txt E file_path w = (Returns s, w')).
Proof.
  repeat apply conj.
  - intros e w' H; unfold read_pdf; rewrite (try_except_raises _ _ _ H); reflexivity.
  - intros e w' H; unfold read_word; rewrite (try_except_raises _ _ _ H); reflexivity.
  - intros e w' H; unfold read_txt; rewrite (try_except_raises _ _ _ H); reflexivity.
  - apply try_except_total.
  - apply try_except_total.
  - apply try_except_total.
Qed.

Lemma readers_turn_exceptions_into_strings_witness :
  let path := lit "missing" in
  read_pdf hostile_env path []
  = (Returns (lit "PDF读取失败: [Errno 2] No such file or directory: 'missing'"),
     [EvOpen path "rb"]) /\
  read_word hostile_env path []
  = (Returns (lit "Word读取失败: Package not found at 'missing'"),
     [EvDocxDocument path]) /\
  read_txt hostile_env path []
  = (Returns (lit "TXT读取失败: [Errno 2] No such file or directory: 'missing'"),
     [EvOpen path "r"]).
Proof.
  intros path.
  destruct (readers_turn_exceptions_into_strings hostile_env path [])
    as (Hpdf & Hword & Htxt & _).
  split; [|split].
  - exact (Hpdf (FileNotFoundError path) [EvOpen path "rb"] eq_refl).
  - exact (Hword (PackageNotFoundError path) [EvDocxDocument path] eq_refl).
  - exact (Htxt (FileNotFoundError path) [EvOpen path "r"] eq_refl).
Defined.

(** C6. For a non-empty path, [parse_document] goes by the exact suffix
    of the path: [".pdf"] to [read_pdf], [".docx"] to [read_word],
    [".txt"] to [read_txt]; a path with none of the three suffixes gets
    the fixed unsupported-format message, with nothing raised and nothing
    called.  The suffix test compares characters, so [".PDF"] is not
    [".pdf"]. *)
Theorem parse_document_dispatches_on_suffix (E : env) (p : pystr) :
  p <> [] ->
  (forall suffix, endswith p suffix = true <-> exists stem, p = stem ++ suffix) /\
  (endswith p (lit ".pdf") = true -> parse_document E (PyStr p) = read_pdf E p) /\
  (endswith p (lit ".docx") = true -> parse_document E (PyStr p) = read_word E p) /\
  (endswith p (lit ".txt") = true -> parse_document E (PyStr p) = read_txt E p) /\
  (endswith p (lit ".pdf") = false ->
   endswith p (lit ".docx") = false ->
   endswith p (lit ".txt") = false ->
   forall w, parse_document E (PyStr p) w = (Returns unsupported_format_message, w)).
Proof.
  intros Hp; rewrite (parse_document_truthy E Hp); repeat apply conj.
  - intros suffix; apply endswith_spec.
  - intros ->; reflexivity.
  - intros H; rewrite (docx_not_pdf _ H), H; reflexivity.
  - intros H; rewrite (txt_not_pdf _ H), (txt_not_docx _ H), H; reflexivity.
  - intros -> -> -> w; reflexivity.
Qed.

Lemma parse_document_dispatches_on_suffix_witness :
  parse_document hostile_env (PyStr (lit "report.pdf"))
  = read_pdf hostile_env (lit "report.pdf") /\
  parse_document hostile_env (PyStr (lit "report.docx"))
  = read_word hostile_env (lit "report.docx") /\
  parse_document hostile_env (PyStr (lit "report.txt"))
  = read_txt hostile_env (lit "report.txt") /\
  parse_document hostile_env (PyStr (lit "REPORT.PDF")) []
  = (Returns unsupported_format_message, []).
Proof.
  assert (Hne : forall s : pystr, len s <> 0 -> s <> [])
    by (intros s H ->; apply H; reflexivity).
  split; [|split; [|split]].
  - refine (proj1 (proj2 (@parse_document_dispatches_on_suffix hostile_env
                            (lit "report.pdf") _)) _);
      [apply Hne; vm_compute; discriminate | vm_compute; reflexivity].
  - refine (proj1 (proj2 (proj2 (@parse_document_dispatches_on_suffix hostile_env
                            (lit "report.docx") _))) _);
      [apply Hne; vm_compute; discriminate | vm_compute; reflexivity].
  - refine (proj1 (proj2 (proj2 (proj2 (@parse_document_dispatches_on_suffix
                            hostile_env (lit "report.txt") _)))) _);
      [apply Hne; vm_compute; discriminate | vm_compute; reflexivity].
  - refine (proj2 (proj2 (proj2 (proj2 (@parse_document_dispatches_on_suffix
                            hostile_env (lit "REPORT.PDF") _)))) _ _ _ []);
      [apply Hne; vm_compute; discriminate | vm_compute; reflexivity ..].
Defined.

(** C10. For the empty path and for [None], [parse_document] returns
    the empty-path message, which differs from the unsupported-format
    message; it raises nothing and calls nothing.  The test comes before
    the dispatch: whenever the result is the unsupported-format message,
    the path was not empty. *)
Theorem parse_document_empty_path (E : env) (w : world) :
  parse_document E PyNone w = (Returns (lit "文件路径为空"), w) /\
  parse_document E (PyStr []) w = (Returns (lit "文件路径为空"), w) /\
  lit "文件路径为空" <> unsupported_format_message /\
  (forall v w',
     parse_document E v w = (Returns unsupported_format_message, w') ->
     truthy v = true).
Proof.
  split; [reflexivity|]. split; [reflexivity|]. split; [exact messages_differ|].
  intros v w' H; destruct (truthy v) eqn:Hv; [reflexivity|].
  rewrite (parse_document_falsy E v Hv) in H.
  exfalso; exact (messages_differ (returns_inj H)).
Qed.

Lemma parse_document_empty_path_witness :
  parse_document hostile_env (PyStr (lit "notes.md")) []
  = (Returns unsupported_format_message, []) /\
  truthy (PyStr (lit "notes.md")) = true.
Proof.
  assert (H : parse_document hostile_env (PyStr (lit "notes.md")) []
              = (Returns unsupported_format_message, []))
    by (vm_compute; reflexivity).
  split; [exact H|].
  exact (proj2 (proj2 (proj2 (parse_document_empty_path hostile_env []))) _ _ H).
Defined.

(** ** Model gateway: the body of the [try] statement, case by case *)

Section GatewayFacts.

Variable C : config.
Variable E : env.
Variable prompt : pystr.
Variable budget : Z.
Variable w : world.

Lemma body_client_fails (e : exn) :
  zhipu_client E w (str_of (ZHIPU_API_KEY C)) = Raises e ->
  call_model_api_body C E prompt budget w
  = (Raises e, w ++ [EvZhipuAI (str_of (ZHIPU_API_KEY C))]).
Proof.
  intros H; unfold call_model_api_body, bind, ZhipuAI, extcall.
  rewrite H; reflexivity.
Qed.

Lemma body_create_fails (c : client) (e : exn) :
  zhipu_client E w (str_of (ZHIPU_API_KEY C)) = Returns c ->
  chat_create E (w ++ [EvZhipuAI (str_of (ZHIPU_API_KEY C))]) c
    (request_of C prompt budget) = Raises e ->
  call_model_api_body C E prompt budget w
  = (Raises e,
     (w ++ [EvZhipuAI (str_of (ZHIPU_API_KEY C))])
       ++ [EvChatCreate c (request_of C prompt budget)]).
Proof.
  intros H1 H2.
  unfold call_model_api_body, bind, ZhipuAI, chat_completions_create, extcall.
  rewrite H1, H2; reflexivity.
Qed.

Lemma body_no_choice (c : client) (resp : chat_response) :
  zhipu_client E w (str_of (ZHIPU_API_KEY C)) = Returns c ->
  chat_create E (w ++ [EvZhipuAI (str_of (ZHIPU_API_KEY C))]) c
    (request_of C prompt budget) = Returns resp ->
  choices resp = [] ->
  call_model_api_body C E prompt budget w
  = (Raises (mkExn "IndexError" (lit "list index out of range")),
     (w ++ [EvZhipuAI (str_of (ZHIPU_API_KEY C))])
       ++ [EvChatCreate c (request_of C prompt budget)]).
Proof.
  intros H1 H2 H3.
  unfold call_model_api_body, bind, ZhipuAI, chat_completions_create, extcall.
  rewrite H1, H2, H3; reflexivity.
Qed.

Lemma body_first_choice (c : client) (resp : chat_response)
    (first : chat_choice) (rest : list chat_choice) :
  zhipu_client E w (str_of (ZHIPU_API_KEY C)) = Returns c ->
  chat_create E (w ++ [EvZhipuAI (str_of (ZHIPU_API_KEY C))]) c
    (request_of C prompt budget) = Returns resp ->
  choices resp = first :: rest ->
  call_model_api_body C E prompt budget w
  = (Returns (content (message first)),
     (w ++ [EvZhipuAI (str_of (ZHIPU_API_KEY C))])
       ++ [EvChatCreate c (request_of C prompt budget)]).
Proof.
  intros H1 H2 H3.
  unfold call_model_api_body, bind, ZhipuAI, chat_completions_create, extcall.
  rewrite H1, H2, H3; reflexivity.
Qed.

Lemma call_model_api_no_key :
  truthy (ZHIPU_API_KEY C) = false ->
  call_model_api C E prompt budget = ret missing_key_message.
Proof. intros H; unfold call_model_api; rewrite H; reflexivity. Qed.

Lemma call_model_api_with_key :
  truthy (ZHIPU_API_KEY C) = true ->
  call_model_api C E prompt budget
  = try_except (call_model_api_body C E prompt budget)
      (fun e => ret (api_failure_marker ++ exn_str e)).
Proof. intros H; unfold call_model_api; rewrite H; reflexivity. Qed.

Lemma call_model_api_caught (e : exn) (w' : world) :
  truthy (ZHIPU_API_KEY C) = true ->
  call_model_api_body C E prompt budget w = (Raises e, w') ->
  call_model_api C E prompt budget w
  = (Returns (api_failure_marker ++ exn_str e), w').
Proof.
  intros Hkey H; rewrite (call_model_api_with_key Hkey).
  rewrite (try_except_raises _ _ _ H); reflexivity.
Qed.

Lemma call_model_api_total :
  exists s w', call_model_api C E prompt budget w = (Returns s, w').
Proof.
  destruct (truthy (ZHIPU_API_KEY C)) eqn:Hkey.
  - rewrite (call_model_api_with_key Hkey); apply try_except_total.
  - rewrite (call_model_api_no_key Hkey); exists missing_key_message, w; reflexivity.
Qed.

End GatewayFacts.

(** ** Claims about the model gateway *)

(** C4. With an API key configured, every exception raised inside the
    [try] statement of [call_model_api] (building the client, the
    chat-completion call, taking the first choice of a response without
    choices) comes back as the failure marker followed by [str(e)], and
    [call_model_api] returns a string in every case; when the call
    succeeds, the result is the content of the first choice's message. *)
Theorem call_model_api_catches_failures
    (C : config) (E : env) (prompt : pystr) (budget : Z) (w : world) :
  truthy (ZHIPU_API_KEY C) = true ->
  let key := str_of (ZHIPU_API_KEY C) in
  let w1 := w ++ [EvZhipuAI key] in
  let req := request_of C prompt budget in
  let w2 c := w1 ++ [EvChatCreate c req] in
  (forall e w', call_model_api_body C E prompt budget w = (Raises e, w') ->
     call_model_api C E prompt budget w
     = (Returns (lit "API调用失败: " ++ exn_str e), w')) /\
  (forall e, zhipu_client E w key = Raises e ->
     call_model_api C E prompt budget w
     = (Returns (lit "API调用失败: " ++ exn_str e), w1)) /\
  (forall c e, zhipu_client E w key = Returns c ->
     chat_create E w1 c req = Raises e ->
     call_model_api C E prompt budget w
     = (Returns (lit "API调用失败: " ++ exn_str e), w2 c)) /\
  (forall c resp, zhipu_client E w key = Returns c ->
     chat_create E w1 c req = Returns resp ->
     choices resp = [] ->
     call_model_api C E prompt budget w
     = (Returns (lit "API调用失败: " ++ lit "list index out of range"), w2 c)) /\
  (forall c resp first rest, zhipu_client E w key = Returns c ->
     chat_create E w1 c req = Returns resp ->
     choices resp = first :: rest ->
     call_model_api C E prompt budget w
     = (Returns (content (message first)), w2 c)) /\
  (exists s w', call_model_api C E prompt budget w = (Returns s, w')).
Proof.
  intros Hkey key w1 req w2; repeat apply conj.
  - intros e w' H; apply call_model_api_caught; assumption.
  - intros e H; apply call_model_api_caught; [assumption|].
    apply body_client_fails; assumption.
  - intros c e H1 H2; apply call_model_api_caught; [assumption|].
    apply body_create_fails; assumption.
  - intros c resp H1 H2 H3.
    replace (lit "list index out of range")
      with (exn_str (mkExn "IndexError" (lit "list index out of range")))
      by (vm_compute; reflexivity).
    apply call_model_api_caught; [assumption|].
    apply body_no_choice with (resp := resp); assumption.
  - intros c resp first rest H1 H2 H3.
    rewrite call_model_api_with_key by assumption.
    apply try_except_returns.
    apply body_first_choice with (resp := resp) (rest := rest); assumption.
  - apply call_model_api_total.
Qed.

Lemma call_model_api_catches_failures_witness :
  let prompt := lit "你好" in
  truthy (ZHIPU_API_KEY source_config) = true /\
  (exists w', call_model_api source_config hostile_env prompt 1024 []
              = (Returns (lit "API调用失败: " ++ exn_str AuthenticationError), w')) /\
  (exists w', call_model_api source_config timeout_env prompt 1024 []
              = (Returns (lit "API调用失败: " ++ exn_str TimeoutError), w')) /\
  (exists w', call_model_api source_config (friendly_env [] []) prompt 1024 []
              = (Returns (lit "API调用失败: " ++ lit "list index out of range"), w')) /\
  (exists w', call_model_api source_config
                (friendly_env [] [lit "答案"; lit "其他"]) prompt 1024 []
              = (Returns (lit "答案"), w')).
Proof.
  intros prompt.
  assert (Hkey : truthy (ZHIPU_API_KEY source_config) = true)
    by (vm_compute; reflexivity).
  split; [exact Hkey|].
  split; [|split; [|split]].
  - destruct (@call_model_api_catches_failures source_config hostile_env
                prompt 1024 [] Hkey) as (_ & H & _).
    eexists; exact (H AuthenticationError eq_refl).
  - destruct (@call_model_api_catches_failures source_config timeout_env
                prompt 1024 [] Hkey) as (_ & _ & H & _).
    eexists; exact (H 7 TimeoutError eq_refl eq_refl).
  - destruct (@call_model_api_catches_failures source_config (friendly_env [] [])
                prompt 1024 [] Hkey) as (_ & _ & _ & H & _).
    eexists; exact (H 7 (mkResponse []) eq_refl eq_refl eq_refl).
  - destruct (@call_model_api_catches_failures source_config
                (friendly_env [] [lit "答案"; lit "其他"])
                prompt 1024 [] Hkey) as (_ & _ & _ & _ & H & _).
    eexists.
    exact (H 7 _ (mkChoice (mkMessage (lit "assistant") (lit "答案"))) _
             eq_refl eq_refl eq_refl).
Defined.

(** ** How long the instruction text is

    The instruction text of [generate_summary] and of [extract_key_info]
    is the same for every call, and that of [translate_text] has the same
    length for each of the six languages; that of [document_qa] grows
    with the question and that of [format_conversion] with the name of
    the format. *)

Ltac len_of_literals :=
  repeat match goal with
         | |- context [len (lit ?s)] =>
             let n := eval vm_compute in (len (lit s)) in
             replace (len (lit s)) with n by (vm_compute; reflexivity)
         end;
  replace (len NL) with 1 by reflexivity.

Lemma summary_instruction_length : len summary_before + len summary_after = 58.
Proof. vm_compute; reflexivity. Qed.

Lemma key_info_instruction_length : len key_info_before + len key_info_after = 60.
Proof. vm_compute; reflexivity. Qed.

Lemma qa_instruction_length (question : pystr) :
  len (qa_before question) + len qa_after = 68 + len question.
Proof.
  unfold qa_before, qa_after; rewrite !len_app; len_of_literals; lia.
Qed.

Lemma translate_instruction_length (target_lang : pystr) :
  In target_lang supported_langs ->
  len (translate_before target_lang) + len translate_after = 34.
Proof.
  intros H; unfold supported_langs, In in H.
  repeat (destruct H as [<- | H]; [vm_compute; reflexivity|]); contradiction.
Qed.

Lemma convert_instruction_length (target_format : pystr) :
  len (convert_before target_format) + len convert_after = 34 + len target_format.
Proof.
  unfold convert_before, convert_after; rewrite !len_app; len_of_literals; lia.
Qed.

(** * Further properties of the code *)

(** ** What a computation may log *)

Section LogsOnly.

Variable P : event -> bool.

Lemma logs_only_ret {A} (a : A) : logs_only P (ret a).
Proof. intros w; exists []; rewrite app_nil_r; split; reflexivity. Qed.

Lemma logs_only_raise {A} (e : exn) : logs_only P (@raise A e).
Proof. intros w; exists []; rewrite app_nil_r; split; reflexivity. Qed.

Lemma logs_only_extcall {A} (ev : event) (oracle : world -> outcome A) :
  P ev = true -> logs_only P (extcall ev oracle).
Proof.
  intros Hev w; exists [ev]; split; [reflexivity|].
  simpl; rewrite Hev; reflexivity.
Qed.

Lemma logs_only_bind {A B} (m : M A) (k : A -> M B) :
  logs_only P m -> (forall a, logs_only P (k a)) -> logs_only P (bind m k).
Proof.
  intros Hm Hk w; unfold bind.
  destruct (Hm w) as (d1 & H1 & HP1).
  destruct (m w) as [[a | e] w1]; simpl in H1; subst w1.
  - destruct (Hk a (w ++ d1)) as (d2 & H2 & HP2).
    exists (d1 ++ d2); rewrite H2, app_assoc, forallb_app, HP1, HP2.
    split; reflexivity.
  - exists d1; split; [reflexivity | assumption].
Qed.

Lemma logs_only_try_except {A} (body : M A) (handler : exn -> M A) :
  logs_only P body -> (forall e, logs_only P (handler e)) ->
  logs_only P (try_except body handler).
Proof.
  intros Hm Hk w; unfold try_except.
  destruct (Hm w) as (d1 & H1 & HP1).
  destruct (body w) as [[a | e] w1]; simpl in H1; subst w1.
  - exists d1; split; [reflexivity | assumption].
  - destruct (Hk e (w ++ d1)) as (d2 & H2 & HP2).
    exists (d1 ++ d2); rewrite H2, app_assoc, forallb_app, HP1, HP2.
    split; reflexivity.
Qed.

Lemma logs_only_if {A} (b : bool) (m1 m2 : M A) :
  logs_only P m1 -> logs_only P m2 -> logs_only P (if b then m1 else m2).
Proof. destruct b; auto. Qed.

End LogsOnly.

Lemma logs_only_weaken (P Q : event -> bool) {A} (m : M A) :
  (forall ev, P ev = true -> Q ev = true) -> logs_only P m -> logs_only Q m.
Proof.
  intros HPQ Hm w; destruct (Hm w) as (d & H & HP); exists d; split; [exact H|].
  rewrite forallb_forall in *; auto.
Qed.

Section ReaderLogs.

Variable E : env.
Variable P : event -> bool.

Lemma logs_only_with_open {A} (path : pystr) (mode : string) (body : file -> M A) :
  P (EvOpen path mode) = true -> (forall f, P (EvClose f) = true) ->
  (forall f, logs_only P (body f)) ->
  logs_only P (with_open E path mode body).
Proof.
  intros Hopen Hclose Hbody; unfold with_open.
  apply logs_only_bind.
  - apply logs_only_extcall; assumption.
  - intros f w; destruct (Hbody f w) as (d & H & HP).
    destruct (body f w) as [r w1]; simpl in H; subst w1.
    exists (d ++ [EvClose f]); unfold py_close, extcall.
    destruct (file_close E (w ++ d) f); simpl;
      rewrite app_assoc, forallb_app, HP; simpl; rewrite Hclose; split; reflexivity.
Qed.

Lemma logs_only_extract_pages (pages : list page) (text : pystr) :
  (forall p, P (EvExtractText p) = true) ->
  logs_only P (extract_pages E pages text).
Proof.
  intros HP; revert text; induction pages as [|p rest IH]; intros text.
  - apply logs_only_ret.
  - cbn [extract_pages]; apply logs_only_bind.
    + apply logs_only_extcall; apply HP.
    + intros t; apply IH.
Qed.

End ReaderLogs.

(** ** Document reader: further properties *)

Lemma api_attempts_app (a b : world) :
  api_attempts (a ++ b) = api_attempts a + api_attempts b.
Proof.
  induction a as [|ev a IH]; [reflexivity|].
  destruct ev; simpl; rewrite IH; reflexivity.
Qed.

Lemma gateway_calls_app (a b : world) :
  gateway_calls (a ++ b) = gateway_calls a + gateway_calls b.
Proof.
  induction a as [|ev a IH]; [reflexivity|].
  destruct ev; simpl; rewrite IH; reflexivity.
Qed.

Lemma reader_events_no_api (path : pystr) (d : world) :
  forallb (reader_event path) d = true ->
  api_attempts d = 0 /\ gateway_calls d = 0.
Proof.
  induction d as [|ev d IH]; [split; reflexivity|].
  simpl; rewrite andb_true_iff; intros [Hev Hd].
  destruct ev; simpl in *; try discriminate; auto.
Qed.

Lemma snd_try_except_ret {A} (body : M A) (g : exn -> A) (w : world) :
  snd (try_except body (fun e => ret (g e)) w) = snd (body w).
Proof. unfold try_except; destruct (body w) as [[a | e] w1]; reflexivity. Qed.

Section ReaderProperties.

Variable E : env.

Lemma read_pdf_logs (path : pystr) : logs_only (reader_event path) (read_pdf E path).
Proof.
  apply logs_only_try_except; [|intros e; apply logs_only_ret].
  apply logs_only_with_open; [apply str_eqb_refl | reflexivity |].
  intros f; apply logs_only_bind.
  - apply logs_only_extcall; reflexivity.
  - intros pages; apply logs_only_extract_pages; reflexivity.
Qed.

Lemma read_word_logs (path : pystr) : logs_only (reader_event path) (read_word E path).
Proof.
  apply logs_only_try_except; [|intros e; apply logs_only_ret].
  apply logs_only_bind.
  - apply logs_only_extcall; apply str_eqb_refl.
  - intros paras; apply logs_only_ret.
Qed.

Lemma read_txt_logs (path : pystr) : logs_only (reader_event path) (read_txt E path).
Proof.
  apply logs_only_try_except; [|intros e; apply logs_only_ret].
  apply logs_only_with_open; [apply str_eqb_refl | reflexivity |].
  intros f; apply logs_only_extcall; reflexivity.
Qed.

Lemma parse_document_logs (v : pyval) :
  logs_only (reader_event (str_of v)) (parse_document E v).
Proof.
  unfold parse_document; repeat apply logs_only_if;
    try apply logs_only_ret.
  - apply read_pdf_logs.
  - apply read_word_logs.
  - apply read_txt_logs.
Qed.

Lemma parse_document_total (v : pyval) (w : world) :
  exists s w', parse_document E v w = (Returns s, w').
Proof.
  unfold parse_document.
  destruct (negb (truthy v)); [eexists; eexists; reflexivity|].
  cbv zeta.
  destruct (endswith (str_of v) (lit ".pdf")); [apply try_except_total|].
  destruct (endswith (str_of v) (lit ".docx")); [apply try_except_total|].
  destruct (endswith (str_of v) (lit ".txt")); [apply try_except_total|].
  eexists; eexists; reflexivity.
Qed.

End ReaderProperties.

(** X1. [parse_document] raises nothing: for every path value ([None],
    the empty string, any string), every environment and every log, it
    returns a string. *)
Theorem parse_document_never_raises (E : env) (file_path : pyval) (w : world) :
  exists s w', parse_document E file_path w = (Returns s, w').
Proof. apply parse_document_total. Qed.

(** X3. Whatever [parse_document] adds to the log is work on the path it
    was given: it opens no other path, builds no API client, sends no
    request and does not call the gateway. *)
Theorem parse_document_touches_only_its_path (E : env) (file_path : pyval) (w : world) :
  exists delta,
    snd (parse_document E file_path w) = w ++ delta /\
    forallb (reader_event (str_of file_path)) delta = true /\
    api_attempts (w ++ delta) = api_attempts w /\
    gateway_calls (w ++ delta) = gateway_calls w.
Proof.
  destruct (parse_document_logs E file_path w) as (delta & H & HP).
  exists delta; split; [exact H|]; split; [exact HP|].
  destruct (reader_events_no_api _ _ HP) as [Ha Hg].
  rewrite api_attempts_app, gateway_calls_app, Ha, Hg; lia.
Qed.

(** Two suffixes of one string: the shorter is a suffix of the longer. *)
Lemma suffixes_nest (s a b : pystr) :
  endswith s a = true -> endswith s b = true ->
  endswith a b = true \/ endswith b a = true.
Proof.
  intros Ha Hb.
  apply endswith_spec in Ha as [p Hp]; apply endswith_spec in Hb as [q Hq].
  rewrite Hp in Hq; apply app_eq_app in Hq as [l [[_ H] | [_ H]]].
  - right; apply endswith_spec; exists l; exact H.
  - left; apply endswith_spec; exists l; exact H.
Qed.

Lemma unrelated_suffix_excludes (stem u x : pystr) :
  endswith u x = false -> endswith x u = false -> endswith (stem ++ u) x = false.
Proof.
  intros Hux Hxu; destruct (endswith (stem ++ u) x) eqn:Hend; [|reflexivity].
  assert (Hu : endswith (stem ++ u) u = true)
    by (apply endswith_spec; exists stem; reflexivity).
  destruct (suffixes_nest _ _ _ Hu Hend) as [H | H]; congruence.
Qed.

(** X2. A path that ends in a suffix unrelated to the three supported
    ones (neither is a suffix of the other, as for [".PDF"], [".Docx"]
    or [".doc"]) gets the unsupported-format message, whatever stands
    before the suffix; nothing is opened. *)
Theorem parse_document_rejects_unrelated_suffix
    (E : env) (stem u : pystr) (w : world) :
  (forall x, In x [lit ".pdf"; lit ".docx"; lit ".txt"] ->
             endswith u x = false /\ endswith x u = false) ->
  parse_document E (PyStr (stem ++ u)) w = (Returns unsupported_format_message, w).
Proof.
  intros H.
  assert (Hu : u <> []).
  { intros ->; destruct (H (lit ".pdf")) as [_ Hx]; [left; reflexivity|].
    discriminate Hx. }
  assert (Hne : stem ++ u <> []).
  { intros Heq; apply app_eq_nil in Heq as [_ Heq]; contradiction. }
  rewrite (parse_document_truthy E Hne).
  destruct (H (lit ".pdf")) as [H1 H1']; [left; reflexivity|].
  destruct (H (lit ".docx")) as [H2 H2']; [right; left; reflexivity|].
  destruct (H (lit ".txt")) as [H3 H3']; [right; right; left; reflexivity|].
  rewrite (unrelated_suffix_excludes stem _ _ H1 H1').
  rewrite (unrelated_suffix_excludes stem _ _ H2 H2').
  rewrite (unrelated_suffix_excludes stem _ _ H3 H3').
  reflexivity.
Qed.

Lemma unrelated_by_computation (u : pystr) :
  forallb (fun x => negb (endswith u x) && negb (endswith x u))
          [lit ".pdf"; lit ".docx"; lit ".txt"] = true ->
  forall x, In x [lit ".pdf"; lit ".docx"; lit ".txt"] ->
            endswith u x = false /\ endswith x u = false.
Proof.
  intros H x Hx; rewrite forallb_forall in H; specialize (H x Hx).
  apply andb_true_iff in H as [H1 H2].
  apply negb_true_iff in H1; apply negb_true_iff in H2; split; assumption.
Defined.

Lemma parse_document_rejects_unrelated_suffix_witness :
  parse_document hostile_env (PyStr (lit "REPORT" ++ lit ".PDF")) []
  = (Returns unsupported_format_message, []) /\
  parse_document hostile_env (PyStr (lit "Report" ++ lit ".Docx")) []
  = (Returns unsupported_format_message, []) /\
  parse_document hostile_env (PyStr (lit "letter" ++ lit ".doc")) []
  = (Returns unsupported_format_message, []).
Proof.
  split; [|split];
    apply parse_document_rejects_unrelated_suffix;
    apply unrelated_by_computation; vm_compute; reflexivity.
Defined.

(** ** The readers and the file they open *)

Section OpenedFiles.

Variable E : env.

Lemma with_open_closes {A} (path : pystr) (mode : string) (body : file -> M A)
    (w : world) (f : file) :
  os_open E w path mode = Returns f ->
  logs_only (fun ev => negb (open_or_close ev)) (body f) ->
  exists mid,
    snd (with_open E path mode body w) = w ++ [EvOpen path mode] ++ mid ++ [EvClose f] /\
    forallb (fun ev => negb (open_or_close ev)) mid = true.
Proof.
  intros Hopen Hbody; unfold with_open, bind, py_open, extcall; rewrite Hopen.
  destruct (Hbody (w ++ [EvOpen path mode])) as (mid & H & HP).
  exists mid; split; [|exact HP].
  destruct (body f (w ++ [EvOpen path mode])) as [r w1]; simpl in H; subst w1.
  unfold py_close, extcall.
  destruct (file_close E ((w ++ [EvOpen path mode]) ++ mid) f); simpl;
    rewrite <- !app_assoc; reflexivity.
Qed.

Lemma with_open_not_opened {A} (path : pystr) (mode : string) (body : file -> M A)
    (w : world) (e : exn) :
  os_open E w path mode = Raises e ->
  with_open E path mode body w = (Raises e, w ++ [EvOpen path mode]).
Proof.
  intros Hopen; unfold with_open, bind, py_open, extcall; rewrite Hopen; reflexivity.
Qed.

Lemma pdf_body_between (f : file) :
  logs_only (fun ev => negb (open_or_close ev))
    (bind (PdfReader_pages E f) (fun pages => extract_pages E pages [])).
Proof.
  apply logs_only_bind.
  - apply logs_only_extcall; reflexivity.
  - intros pages; apply logs_only_extract_pages; reflexivity.
Qed.

End OpenedFiles.

(** X4. [read_pdf] and [read_txt] close the file they opened, once and
    as the last thing they do, whether reading succeeded or raised; when
    the file could not be opened, nothing is closed and nothing else is
    tried. *)
Theorem readers_close_what_they_open (E : env) (path : pystr) (w : world) :
  (forall f, os_open E w path "rb" = Returns f ->
     exists mid,
       snd (read_pdf E path w) = w ++ [EvOpen path "rb"] ++ mid ++ [EvClose f] /\
       forallb (fun ev => negb (open_or_close ev)) mid = true) /\
  (forall f, os_open E w path "r" = Returns f ->
     exists mid,
       snd (read_txt E path w) = w ++ [EvOpen path "r"] ++ mid ++ [EvClose f] /\
       forallb (fun ev => negb (open_or_close ev)) mid = true) /\
  (forall e, os_open E w path "rb" = Raises e ->
     snd (read_pdf E path w) = w ++ [EvOpen path "rb"]) /\
  (forall e, os_open E w path "r" = Raises e ->
     snd (read_txt E path w) = w ++ [EvOpen path "r"]).
Proof.
  repeat apply conj.
  - intros f Hopen; unfold read_pdf; rewrite snd_try_except_ret.
    apply with_open_closes; [assumption | apply pdf_body_between].
  - intros f Hopen; unfold read_txt; rewrite snd_try_except_ret.
    apply with_open_closes; [assumption|].
    apply logs_only_extcall; reflexivity.
  - intros e Hopen; unfold read_pdf, read_pdf_body; rewrite snd_try_except_ret.
    erewrite with_open_not_opened by eassumption; reflexivity.
  - intros e Hopen; unfold read_txt, read_txt_body; rewrite snd_try_except_ret.
    erewrite with_open_not_opened by eassumption; reflexivity.
Qed.

Lemma readers_close_what_they_open_witness :
  (exists mid,
     snd (read_pdf (pdf_env [Returns None; Raises ExtractionError] []) (lit "a.pdf") [])
     = [] ++ [EvOpen (lit "a.pdf") "rb"] ++ mid ++ [EvClose 3] /\
     forallb (fun ev => negb (open_or_close ev)) mid = true) /\
  snd (read_txt hostile_env (lit "a.txt") []) = [] ++ [EvOpen (lit "a.txt") "r"].
Proof.
  split.
  - exact (proj1 (readers_close_what_they_open
                    (pdf_env [Returns None; Raises ExtractionError] [])
                    (lit "a.pdf") []) 3 eq_refl).
  - exact (proj2 (proj2 (proj2 (readers_close_what_they_open hostile_env
                    (lit "a.txt") []))) (FileNotFoundError (lit "a.txt")) eq_refl).
Defined.

(** ** The text [read_pdf] gathers *)

Section PdfText.

Variable E : env.
Variable t : page -> option pystr.

Lemma extract_pages_returns (pages : list page) :
  (forall l p, In p pages -> page_extract_text E l p = Returns (t p)) ->
  forall text w,
    extract_pages E pages text w
    = (Returns (text ++ List.concat (map (fun p => or_empty (t p)) pages)),
       w ++ map EvExtractText pages).
Proof.
  induction pages as [|p rest IH]; intros Ht text w.
  - simpl; rewrite !app_nil_r; reflexivity.
  - cbn [extract_pages]; unfold bind, extract_text, extcall.
    rewrite (Ht w p (or_introl eq_refl)).
    rewrite IH by (intros l q Hq; apply Ht; right; exact Hq).
    simpl; rewrite <- !app_assoc; reflexivity.
Qed.

Lemma extract_pages_raises (before : list page) (p : page) (after : list page) (e : exn) :
  (forall l q, In q before -> page_extract_text E l q = Returns (t q)) ->
  (forall l, page_extract_text E l p = Raises e) ->
  forall text w,
    extract_pages E (before ++ p :: after) text w
    = (Raises e, w ++ map EvExtractText before ++ [EvExtractText p]).
Proof.
  induction before as [|q rest IH]; intros Ht Hp text w.
  - cbn [app extract_pages map]; unfold bind, extract_text, extcall.
    rewrite Hp; reflexivity.
  - cbn [app extract_pages map]; unfold bind, extract_text, extcall.
    rewrite (Ht w q (or_introl eq_refl)).
    rewrite IH; [|intros l r Hr; apply Ht; right; exact Hr | exact Hp].
    rewrite <- !app_assoc; reflexivity.
Qed.

End PdfText.

(** X5. When the file opens, the pages are found and every page gives
    its text (or [None]), [read_pdf] returns the texts of the pages
    concatenated in page order, a page without text counting as the
    empty string; each page is asked once, in order, and the file is
    closed last. *)
Theorem read_pdf_concatenates_pages
    (E : env) (path : pystr) (w : world) (f : file) (pages : list page)
    (t : page -> option pystr) :
  os_open E w path "rb" = Returns f ->
  pdf_pages E (w ++ [EvOpen path "rb"]) f = Returns pages ->
  (forall l p, In p pages -> page_extract_text E l p = Returns (t p)) ->
  (forall l, file_close E l f = Returns tt) ->
  read_pdf E path w
  = (Returns (List.concat (map (fun p => or_empty (t p)) pages)),
     w ++ [EvOpen path "rb"; EvPdfReader f] ++ map EvExtractText pages ++ [EvClose f]).
Proof.
  intros Hopen Hpages Ht Hclose.
  unfold read_pdf, try_except, read_pdf_body, with_open, bind at 1, py_open, extcall.
  rewrite Hopen.
  unfold bind, PdfReader_pages, extcall; rewrite Hpages.
  rewrite (extract_pages_returns E t pages Ht).
  unfold py_close, extcall; rewrite Hclose.
  simpl; rewrite <- !app_assoc; reflexivity.
Qed.

Lemma read_pdf_concatenates_pages_witness :
  read_pdf (pdf_env [Returns (Some (lit "第一页")); Returns None;
                     Returns (Some []); Returns (Some (lit "第四页"))] [])
           (lit "a.pdf") []
  = (Returns (List.concat (map (fun p => or_empty
                 (nth p [Some (lit "第一页"); None; Some []; Some (lit "第四页")] None))
                 [0; 1; 2; 3])),
     [] ++ [EvOpen (lit "a.pdf") "rb"; EvPdfReader 3]
        ++ map EvExtractText [0; 1; 2; 3] ++ [EvClose 3]).
Proof.
  apply (@read_pdf_concatenates_pages _ (lit "a.pdf") [] 3 [0; 1; 2; 3]
           (fun p => nth p [Some (lit "第一页"); None; Some []; Some (lit "第四页")] None));
    try reflexivity.
  intros l p Hp; simpl in Hp.
  destruct Hp as [<- | [<- | [<- | [<- | []]]]]; reflexivity.
Defined.

(** X6. [read_pdf] is all or nothing: when a page raises, the text of
    the pages before it is dropped, the pages after it are not asked,
    and the result is the failure string of that exception. *)
Theorem read_pdf_drops_text_when_a_page_fails
    (E : env) (path : pystr) (w : world) (f : file)
    (before : list page) (p : page) (after : list page)
    (t : page -> option pystr) (e : exn) :
  os_open E w path "rb" = Returns f ->
  pdf_pages E (w ++ [EvOpen path "rb"]) f = Returns (before ++ p :: after) ->
  (forall l q, In q before -> page_extract_text E l q = Returns (t q)) ->
  (forall l, page_extract_text E l p = Raises e) ->
  (forall l, file_close E l f = Returns tt) ->
  read_pdf E path w
  = (Returns (lit "PDF读取失败: " ++ exn_str e),
     w ++ [EvOpen path "rb"; EvPdfReader f] ++ map EvExtractText before
       ++ [EvExtractText p; EvClose f]).
Proof.
  intros Hopen Hpages Ht Hp Hclose.
  unfold read_pdf, try_except, read_pdf_body, with_open, bind at 1, py_open, extcall.
  rewrite Hopen.
  unfold bind, PdfReader_pages, extcall; rewrite Hpages.
  rewrite (extract_pages_raises E t before p after Ht Hp).
  unfold py_close, extcall; rewrite Hclose.
  unfold ret; rewrite <- !app_assoc; reflexivity.
Qed.

Lemma read_pdf_drops_text_when_a_page_fails_witness :
  read_pdf (pdf_env [Returns (Some (lit "第一页")); Raises ExtractionError;
                     Returns (Some (lit "第三页"))] [])
           (lit "a.pdf") []
  = (Returns (lit "PDF读取失败: " ++ exn_str ExtractionError),
     [] ++ [EvOpen (lit "a.pdf") "rb"; EvPdfReader 3] ++ map EvExtractText [0]
        ++ [EvExtractText 1; EvClose 3]).
Proof.
  apply (@read_pdf_drops_text_when_a_page_fails _ (lit "a.pdf") [] 3 [0] 1 [2]
           (fun _ => Some (lit "第一页")) ExtractionError);
    try reflexivity.
  intros l q Hq; simpl in Hq; destruct Hq as [<- | []]; reflexivity.
Defined.

(** X7. The value [read_txt] returns does not tell a failed read from a
    successful one: a file whose content is the failure string of an
    exception gives the same value as a read that raised that
    exception. *)
Theorem failed_read_looks_like_content
    (E1 E2 : env) (path : pystr) (w : world) (f : file) (e : exn) :
  os_open E1 w path "r" = Raises e ->
  os_open E2 w path "r" = Returns f ->
  file_read E2 (w ++ [EvOpen path "r"]) f = Returns (lit "TXT读取失败: " ++ exn_str e) ->
  file_close E2 ((w ++ [EvOpen path "r"]) ++ [EvRead f]) f = Returns tt ->
  fst (read_txt E1 path w) = fst (read_txt E2 path w).
Proof.
  intros H1 Hopen Hread Hclose.
  unfold read_txt, read_txt_body, try_except.
  erewrite with_open_not_opened by eassumption.
  unfold with_open, bind, py_open, py_read, py_close, extcall.
  rewrite Hopen, Hread, Hclose; reflexivity.
Qed.

Lemma failed_read_looks_like_content_witness :
  fst (read_txt hostile_env (lit "a.txt") [])
  = fst (read_txt (friendly_env (lit "TXT读取失败: "
                                   ++ exn_str (FileNotFoundError (lit "a.txt"))) [])
                  (lit "a.txt") []).
Proof.
  apply (@failed_read_looks_like_content hostile_env _ (lit "a.txt") [] 3
           (FileNotFoundError (lit "a.txt"))); reflexivity.
Defined.

(** ** Model gateway: further properties *)

(** X8. One call of [call_model_api] sends at most one request and
    never retries: without a key it logs nothing; with a key it builds
    one client and, when that succeeded, sends one request, whose model
    is the configured one, whose only message is the prompt with role
    [user], whose token limit is the budget given and whose temperature
    is 0.7.  It touches no file. *)
Theorem call_model_api_sends_at_most_one_request
    (C : config) (E : env) (prompt : pystr) (budget : Z) (w : world) :
  let key := str_of (ZHIPU_API_KEY C) in
  let w' := snd (call_model_api C E prompt budget w) in
  (truthy (ZHIPU_API_KEY C) = false -> w' = w) /\
  (truthy (ZHIPU_API_KEY C) = true ->
   (exists e, zhipu_client E w key = Raises e /\ w' = w ++ [EvZhipuAI key]) \/
   (exists c, zhipu_client E w key = Returns c /\
      w' = w ++ [EvZhipuAI key;
                 EvChatCreate c (mkRequest (ZHIPU_MODEL C)
                                   [mkMessage (lit "user") prompt] budget (7 # 10)%Q)])).
Proof.
  intros key w'; subst key w'; split; intros Hkey.
  - rewrite call_model_api_no_key by assumption; reflexivity.
  - rewrite call_model_api_with_key by assumption; rewrite snd_try_except_ret.
    unfold call_model_api_body, bind, ZhipuAI, chat_completions_create, extcall.
    destruct (zhipu_client E w (str_of (ZHIPU_API_KEY C))) as [c | e].
    + right; exists c; split; [reflexivity|].
      destruct (chat_create E _ c _) as [resp | e]; [|rewrite <- app_assoc; reflexivity].
      destruct (choices resp) as [|first rest]; simpl;
        rewrite <- app_assoc; reflexivity.
    + left; exists e; split; reflexivity.
Qed.

Lemma call_model_api_sends_at_most_one_request_witness :
  snd (call_model_api (mkConfig PyNone []) timeout_env (lit "你好") 300 []) = [] /\
  ((exists e, zhipu_client timeout_env [] (str_of (ZHIPU_API_KEY source_config)) = Raises e /\
      snd (call_model_api source_config timeout_env (lit "你好") 300 [])
      = [] ++ [EvZhipuAI (str_of (ZHIPU_API_KEY source_config))]) \/
   (exists c, zhipu_client timeout_env [] (str_of (ZHIPU_API_KEY source_config)) = Returns c /\
      snd (call_model_api source_config timeout_env (lit "你好") 300 [])
      = [] ++ [EvZhipuAI (str_of (ZHIPU_API_KEY source_config));
               EvChatCreate c (mkRequest (ZHIPU_MODEL source_config)
                                 [mkMessage (lit "user") (lit "你好")] 300 (7 # 10)%Q)])).
Proof.
  split.
  - exact (proj1 (call_model_api_sends_at_most_one_request
                    (mkConfig PyNone []) timeout_env (lit "你好") 300 []) eq_refl).
  - assert (Hkey : truthy (ZHIPU_API_KEY source_config) = true)
      by (vm_compute; reflexivity).
    exact (proj2 (call_model_api_sends_at_most_one_request
                    source_config timeout_env (lit "你好") 300 []) Hkey).
Defined.

(** ** Task functions: further properties *)

Lemma slice_to_all (n : nat) (s : pystr) : len s <= n -> slice_to n s = s.
Proof. intros H; unfold slice_to; apply firstn_all2; exact H. Qed.

(** X9. What lies beyond the character budget has no effect: two valid
    texts that agree on their first 3000 characters (2000 for
    [translate_text]) lead to the same gateway call and so to the same
    result. *)
Theorem text_beyond_budget_is_ignored
    (gw : pystr -> Z -> M pystr) (t1 t2 question target : pystr) :
  (50 <= len t1 -> 50 <= len t2 -> slice_to 3000 t1 = slice_to 3000 t2 ->
   generate_summary gw t1 = generate_summary gw t2) /\
  (50 <= len t1 -> 50 <= len t2 -> slice_to 3000 t1 = slice_to 3000 t2 ->
   extract_key_info gw t1 = extract_key_info gw t2) /\
  (50 <= len t1 -> 50 <= len t2 -> slice_to 3000 t1 = slice_to 3000 t2 ->
   document_qa gw t1 question = document_qa gw t2 question) /\
  (10 <= len t1 -> 10 <= len t2 -> slice_to 2000 t1 = slice_to 2000 t2 ->
   translate_text gw t1 target = translate_text gw t2 target) /\
  (50 <= len t1 -> 50 <= len t2 -> slice_to 3000 t1 = slice_to 3000 t2 ->
   format_conversion gw t1 target = format_conversion gw t2 target).
Proof.
  repeat apply conj; intros H1 H2 Heq.
  - rewrite !generate_summary_valid by assumption; rewrite Heq; reflexivity.
  - rewrite !extract_key_info_valid by assumption; rewrite Heq; reflexivity.
  - destruct question as [|c q]; [reflexivity|].
    rewrite !document_qa_valid by (assumption || discriminate).
    rewrite Heq; reflexivity.
  - destruct (str_in target supported_langs) eqn:Hin.
    + apply str_in_In in Hin.
      rewrite !translate_text_valid by assumption; rewrite Heq; reflexivity.
    + assert (Hout : ~ In target supported_langs)
        by (intros Hin'; apply str_in_In in Hin'; congruence).
      rewrite !translate_text_unsupported by assumption; reflexivity.
  - destruct (str_in target supported_formats) eqn:Hin.
    + apply str_in_In in Hin.
      rewrite !format_conversion_valid by assumption; rewrite Heq; reflexivity.
    + assert (Hout : ~ In target supported_formats)
        by (intros Hin'; apply str_in_In in Hin'; congruence).
      rewrite !format_conversion_unsupported by assumption; reflexivity.
Qed.

Lemma text_beyond_budget_is_ignored_witness :
  generate_summary (stub_gateway sample_reply) sample_long_text
  = generate_summary (stub_gateway sample_reply) (sample_long_text ++ lit "结论：不可行") /\
  translate_text (stub_gateway sample_reply) sample_long_text (lit "英文")
  = translate_text (stub_gateway sample_reply) (sample_long_text ++ lit "结论：不可行")
      (lit "英文").
Proof.
  assert (H50 : 50 <= len (sample_long_text ++ lit "结论：不可行"))
    by (apply Nat.leb_le; vm_compute; reflexivity).
  assert (H10 : 10 <= len sample_long_text)
    by (apply Nat.leb_le; vm_compute; reflexivity).
  assert (H10' : 10 <= len (sample_long_text ++ lit "结论：不可行"))
    by (apply Nat.leb_le; vm_compute; reflexivity).
  assert (H3000 : slice_to 3000 sample_long_text
                  = slice_to 3000 (sample_long_text ++ lit "结论：不可行"))
    by (vm_compute; reflexivity).
  assert (H2000 : slice_to 2000 sample_long_text
                  = slice_to 2000 (sample_long_text ++ lit "结论：不可行"))
    by (vm_compute; reflexivity).
  destruct (text_beyond_budget_is_ignored (stub_gateway sample_reply)
              sample_long_text (sample_long_text ++ lit "结论：不可行")
              sample_question (lit "英文")) as (Hs & _ & _ & Ht & _).
  split; [exact (Hs sample_long_text_valid H50 H3000) | exact (Ht H10 H10' H2000)].
Defined.

(** X10. A valid text no longer than the budget is embedded whole,
    character for character, between the two parts of the instruction
    text. *)
Theorem text_within_budget_is_embedded_whole
    (gw : pystr -> Z -> M pystr) (text question target : pystr) :
  (50 <= len text -> len text <= 3000 ->
   generate_summary gw text = gw (summary_before ++ text ++ summary_after) 300%Z) /\
  (50 <= len text -> len text <= 3000 ->
   extract_key_info gw text = gw (key_info_before ++ text ++ key_info_after) 500%Z) /\
  (question <> [] -> 50 <= len text -> len text <= 3000 ->
   document_qa gw text question
   = gw (qa_before question ++ text ++ qa_after) 500%Z) /\
  (In target supported_langs -> 10 <= len text -> len text <= 2000 ->
   translate_text gw text target
   = gw (translate_before target ++ text ++ translate_after) 2000%Z) /\
  (In target supported_formats -> 50 <= len text -> len text <= 3000 ->
   format_conversion gw text target
   = gw (convert_before target ++ text ++ convert_after) 1000%Z).
Proof.
  repeat apply conj; intros.
  - rewrite generate_summary_valid, slice_to_all by assumption; reflexivity.
  - rewrite extract_key_info_valid, slice_to_all by assumption; reflexivity.
  - rewrite document_qa_valid, slice_to_all by assumption; reflexivity.
  - rewrite translate_text_valid, slice_to_all by assumption; reflexivity.
  - rewrite format_conversion_valid, slice_to_all by assumption; reflexivity.
Qed.

Lemma text_within_budget_is_embedded_whole_witness :
  generate_summary (stub_gateway sample_reply) sample_text
  = stub_gateway sample_reply (summary_before ++ sample_text ++ summary_after) 300%Z.
Proof.
  assert (H : len sample_text <= 3000) by (apply Nat.leb_le; vm_compute; reflexivity).
  exact (proj1 (text_within_budget_is_embedded_whole (stub_gateway sample_reply)
                  sample_text sample_question (lit "英文")) sample_text_valid H).
Defined.

Lemma supported_format_length (target_format : pystr) :
  In target_format supported_formats -> len target_format <= 8.
Proof.
  intros H; unfold supported_formats, In in H.
  repeat (destruct H as [<- | H]; [apply Nat.leb_le; vm_compute; reflexivity|]).
  contradiction.
Qed.

(** X11. The length of the prompt, in numbers: 60 characters of
    instruction for [extract_key_info], 34 for [translate_text] with any
    of the six languages, 34 and the name of the format (at most 8) for
    [format_conversion], each plus the embedded text; so no prompt of
    these three exceeds 3060, 2034 and 3042 characters.  For
    [document_qa] it is 68 plus the question plus the embedded text: the
    question is embedded whole, and nothing bounds it. *)
Theorem prompt_lengths (text question target : pystr) :
  (50 <= len text ->
   exists prompt,
     (forall gw, extract_key_info gw text = gw prompt 500%Z) /\
     len prompt = 60 + Nat.min (len text) 3000 /\ len prompt <= 3060) /\
  (question <> [] -> 50 <= len text ->
   exists prompt,
     (forall gw, document_qa gw text question = gw prompt 500%Z) /\
     len prompt = 68 + len question + Nat.min (len text) 3000) /\
  (In target supported_langs -> 10 <= len text ->
   exists prompt,
     (forall gw, translate_text gw text target = gw prompt 2000%Z) /\
     len prompt = 34 + Nat.min (len text) 2000 /\ len prompt <= 2034) /\
  (In target supported_formats -> 50 <= len text ->
   exists prompt,
     (forall gw, format_conversion gw text target = gw prompt 1000%Z) /\
     len prompt = 34 + len target + Nat.min (len text) 3000 /\ len prompt <= 3042).
Proof.
  repeat apply conj.
  - intros H; eexists; split;
      [intros gw; apply extract_key_info_valid; assumption|].
    rewrite !len_app, len_slice_to.
    pose proof key_info_instruction_length; lia.
  - intros Hq H; eexists; split;
      [intros gw; apply document_qa_valid; assumption|].
    rewrite !len_app, len_slice_to.
    pose proof (qa_instruction_length question); lia.
  - intros Hin H; eexists; split;
      [intros gw; apply translate_text_valid; assumption|].
    rewrite !len_app, len_slice_to.
    pose proof (translate_instruction_length Hin); lia.
  - intros Hin H; eexists; split;
      [intros gw; apply format_conversion_valid; assumption|].
    rewrite !len_app, len_slice_to.
    pose proof (convert_instruction_length target).
    pose proof (supported_format_length Hin); lia.
Qed.

Lemma prompt_lengths_witness :
  (exists prompt,
     (forall gw, document_qa gw sample_long_text sample_question = gw prompt 500%Z) /\
     len prompt = 68 + len sample_question + Nat.min (len sample_long_text) 3000) /\
  (exists prompt,
     (forall gw, translate_text gw sample_long_text (lit "英文") = gw prompt 2000%Z) /\
     len prompt = 34 + Nat.min (len sample_long_text) 2000 /\ len prompt <= 2034).
Proof.
  assert (H10 : 10 <= len sample_long_text)
    by (apply Nat.leb_le; vm_compute; reflexivity).
  destruct (prompt_lengths sample_long_text sample_question (lit "英文"))
    as (_ & Hqa & Htr & _).
  split; [exact (Hqa sample_question_given sample_long_text_valid)
         | exact (Htr english_supported H10)].
Defined.

(** ** Task functions on the real gateway *)

Section OnTheGateway.

Variable gw : pystr -> Z -> M pystr.
Hypothesis gw_returns : forall prompt budget w, exists s w', gw prompt budget w = (Returns s, w').

Lemma generate_summary_returns text w :
  exists s w', generate_summary gw text w = (Returns s, w').
Proof.
  unfold generate_summary; destruct (len text <? 50);
    [eexists; eexists; reflexivity | apply gw_returns].
Qed.

Lemma extract_key_info_returns text w :
  exists s w', extract_key_info gw text w = (Returns s, w').
Proof.
  unfold extract_key_info; destruct (len text <? 50);
    [eexists; eexists; reflexivity | apply gw_returns].
Qed.

Lemma document_qa_returns text question w :
  exists s w', document_qa gw text question w = (Returns s, w').
Proof.
  unfold document_qa; destruct (len question =? 0);
    [eexists; eexists; reflexivity|].
  destruct (len text <? 50); [eexists; eexists; reflexivity | apply gw_returns].
Qed.

Lemma translate_text_returns text target w :
  exists s w', translate_text gw text target w = (Returns s, w').
Proof.
  unfold translate_text; destruct (len text <? 10);
    [eexists; eexists; reflexivity|].
  destruct (negb (str_in target supported_langs));
    [eexists; eexists; reflexivity | apply gw_returns].
Qed.

Lemma format_conversion_returns text target w :
  exists s w', format_conversion gw text target w = (Returns s, w').
Proof.
  unfold format_conversion; destruct (len text <? 50);
    [eexists; eexists; reflexivity|].
  destruct (negb (str_in target supported_formats));
    [eexists; eexists; reflexivity | apply gw_returns].
Qed.

End OnTheGateway.

(** X12. Bound to [call_model_api], no task function raises: for every
    configuration, environment and input, valid or not, each of the five
    returns a string. *)
Theorem task_functions_never_raise
    (C : config) (E : env) (text question target : pystr) (w : world) :
  (exists s w', generate_summary (call_model_api C E) text w = (Returns s, w')) /\
  (exists s w', extract_key_info (call_model_api C E) text w = (Returns s, w')) /\
  (exists s w', document_qa (call_model_api C E) text question w = (Returns s, w')) /\
  (exists s w', translate_text (call_model_api C E) text target w = (Returns s, w')) /\
  (exists s w', format_conversion (call_model_api C E) text target w = (Returns s, w')).
Proof.
  assert (H : forall prompt budget w0,
             exists s w', call_model_api C E prompt budget w0 = (Returns s, w'))
    by (intros; apply call_model_api_total).
  repeat apply conj.
  - apply generate_summary_returns; exact H.
  - apply extract_key_info_returns; exact H.
  - apply document_qa_returns; exact H.
  - apply translate_text_returns; exact H.
  - apply format_conversion_returns; exact H.
Qed.

(** X13. Without an API key, a valid call of any task function returns
    the configuration message and logs nothing: the prompt is built, and
    no client and no request follow. *)
Theorem valid_call_without_key
    (C : config) (E : env) (text question target : pystr) (w : world) :
  truthy (ZHIPU_API_KEY C) = false ->
  (50 <= len text ->
   generate_summary (call_model_api C E) text w = (Returns missing_key_message, w)) /\
  (50 <= len text ->
   extract_key_info (call_model_api C E) text w = (Returns missing_key_message, w)) /\
  (question <> [] -> 50 <= len text ->
   document_qa (call_model_api C E) text question w
   = (Returns missing_key_message, w)) /\
  (In target supported_langs -> 10 <= len text ->
   translate_text (call_model_api C E) text target w
   = (Returns missing_key_message, w)) /\
  (In target supported_formats -> 50 <= len text ->
   format_conversion (call_model_api C E) text target w
   = (Returns missing_key_message, w)).
Proof.
  intros Hkey; repeat apply conj; intros.
  - rewrite generate_summary_valid, call_model_api_no_key by assumption; reflexivity.
  - rewrite extract_key_info_valid, call_model_api_no_key by assumption; reflexivity.
  - rewrite document_qa_valid, call_model_api_no_key by assumption; reflexivity.
  - rewrite translate_text_valid, call_model_api_no_key by assumption; reflexivity.
  - rewrite format_conversion_valid, call_model_api_no_key by assumption; reflexivity.
Qed.

Lemma valid_call_without_key_witness :
  generate_summary (call_model_api (mkConfig (PyStr []) []) hostile_env) sample_text []
  = (Returns missing_key_message, []) /\
  translate_text (call_model_api (mkConfig PyNone []) hostile_env) sample_text
    (lit "英文") []
  = (Returns missing_key_message, []).
Proof.
  assert (H10 : 10 <= len sample_text) by (apply Nat.leb_le; vm_compute; reflexivity).
  split.
  - exact (proj1 (@valid_call_without_key (mkConfig (PyStr []) []) hostile_env
                    sample_text sample_question (lit "英文") [] eq_refl)
             sample_text_valid).
  - exact (proj1 (proj2 (proj2 (proj2 (@valid_call_without_key (mkConfig PyNone [])
                    hostile_env sample_text sample_question (lit "英文") [] eq_refl))))
             english_supported H10).
Defined.

Lemma call_model_api_answers
    (C : config) (E : env) (prompt : pystr) (budget : Z) (w : world)
    (c : client) (resp : chat_response) (first : chat_choice) (rest : list chat_choice) :
  truthy (ZHIPU_API_KEY C) = true ->
  zhipu_client E w (str_of (ZHIPU_API_KEY C)) = Returns c ->
  (forall req, chat_create E (w ++ [EvZhipuAI (str_of (ZHIPU_API_KEY C))]) c req
               = Returns resp) ->
  choices resp = first :: rest ->
  call_model_api C E prompt budget w
  = (Returns (content (message first)),
     w ++ [EvZhipuAI (str_of (ZHIPU_API_KEY C));
           EvChatCreate c (mkRequest (ZHIPU_MODEL C)
                             [mkMessage (lit "user") prompt] budget (7 # 10)%Q)]).
Proof.
  intros Hkey Hc Hcreate Hchoices.
  rewrite call_model_api_with_key by assumption.
  erewrite try_except_returns;
    [|apply body_first_choice with (resp := resp) (rest := rest);
      [exact Hc | apply Hcreate | exact Hchoices]].
  rewrite <- app_assoc; reflexivity.
Qed.

(** X14. With a key, a client and a provider that answers, a valid call
    of a task function sends exactly one request: its only message is the
    task's prompt with role [user], and its token limit is 300 for the
    summary, 500 for key information and for questions, 2000 for
    translation and 1000 for format conversion.  The result is the
    content of the first choice. *)
Theorem valid_call_sends_one_request
    (C : config) (E : env) (text question target : pystr) (w : world)
    (c : client) (resp : chat_response) (first : chat_choice) (rest : list chat_choice) :
  truthy (ZHIPU_API_KEY C) = true ->
  zhipu_client E w (str_of (ZHIPU_API_KEY C)) = Returns c ->
  (forall req, chat_create E (w ++ [EvZhipuAI (str_of (ZHIPU_API_KEY C))]) c req
               = Returns resp) ->
  choices resp = first :: rest ->
  let sent prompt budget :=
    (Returns (content (message first)),
     w ++ [EvZhipuAI (str_of (ZHIPU_API_KEY C));
           EvChatCreate c (mkRequest (ZHIPU_MODEL C)
                             [mkMessage (lit "user") prompt] budget (7 # 10)%Q)]) in
  (50 <= len text ->
   generate_summary (call_model_api C E) text w
   = sent (summary_before ++ slice_to 3000 text ++ summary_after) 300%Z) /\
  (50 <= len text ->
   extract_key_info (call_model_api C E) text w
   = sent (key_info_before ++ slice_to 3000 text ++ key_info_after) 500%Z) /\
  (question <> [] -> 50 <= len text ->
   document_qa (call_model_api C E) text question w
   = sent (qa_before question ++ slice_to 3000 text ++ qa_after) 500%Z) /\
  (In target supported_langs -> 10 <= len text ->
   translate_text (call_model_api C E) text target w
   = sent (translate_before target ++ slice_to 2000 text ++ translate_after) 2000%Z) /\
  (In target supported_formats -> 50 <= len text ->
   format_conversion (call_model_api C E) text target w
   = sent (convert_before target ++ slice_to 3000 text ++ convert_after) 1000%Z).
Proof.
  intros Hkey Hc Hcreate Hchoices sent; subst sent; repeat apply conj; intros.
  - rewrite generate_summary_valid by assumption.
    apply call_model_api_answers with (resp := resp) (rest := rest); assumption.
  - rewrite extract_key_info_valid by assumption.
    apply call_model_api_answers with (resp := resp) (rest := rest); assumption.
  - rewrite document_qa_valid by assumption.
    apply call_model_api_answers with (resp := resp) (rest := rest); assumption.
  - rewrite translate_text_valid by assumption.
    apply call_model_api_answers with (resp := resp) (rest := rest); assumption.
  - rewrite format_conversion_valid by assumption.
    apply call_model_api_answers with (resp := resp) (rest := rest); assumption.
Qed.

Lemma valid_call_sends_one_request_witness :
  generate_summary
    (call_model_api source_config (friendly_env [] [lit "摘要"; lit "其他"]))
    sample_text []
  = (Returns (content (message (mkChoice (mkMessage (lit "assistant") (lit "摘要"))))),
     [] ++ [EvZhipuAI (str_of (ZHIPU_API_KEY source_config));
            EvChatCreate 7 (mkRequest (ZHIPU_MODEL source_config)
              [mkMessage (lit "user")
                 (summary_before ++ slice_to 3000 sample_text ++ summary_after)]
              300 (7 # 10)%Q)]).
Proof.
  assert (Hkey : truthy (ZHIPU_API_KEY source_config) = true)
    by (vm_compute; reflexivity).
  exact (proj1 (@valid_call_sends_one_request source_config
                  (friendly_env [] [lit "摘要"; lit "其他"])
                  sample_text sample_question (lit "英文") [] 7 _
                  (mkChoice (mkMessage (lit "assistant") (lit "摘要"))) _
                  Hkey eq_refl (fun _ => eq_refl) eq_refl)
           sample_text_valid).
Defined.

(** ** The form *)

Lemma bind_ret_r {A} (m : M A) (w : world) : bind m (fun a => ret a) w = m w.
Proof. unfold bind, ret; destruct (m w) as [[a | e] w1]; reflexivity. Qed.

Section FormProperties.

Variable E : env.
Variable gw : pystr -> Z -> M pystr.

Lemma clicks_after_load (b : button) (s : form) (w w1 : world) (m : pystr) :
  load_document E (file_input s) w = (Returns m, w1) ->
  clicks E gw [load_btn; b] s w = click E gw b (set_doc_content s m) w1.
Proof.
  intros Hload; cbn [clicks]; unfold click at 1, bind at 1 2.
  rewrite Hload; unfold ret at 1.
  apply (bind_ret_r (click E gw b (set_doc_content s m)) w1).
Qed.

Lemma fixed_messages_are_short (m : pystr) :
  In m [lit "请上传文档"; lit "文件路径为空"; unsupported_format_message] ->
  len m < 50.
Proof.
  intros H; unfold In in H.
  repeat (destruct H as [<- | H]; [apply Nat.ltb_lt; vm_compute; reflexivity|]).
  contradiction.
Qed.

End FormProperties.

(** X15. [load_document] raises nothing; without an upload it returns
    the request to upload a document and logs nothing, and with one it
    logs only work on the uploaded file's name: loading a document never
    builds an API client, sends a request or calls the gateway. *)
Theorem load_document_is_safe (E : env) (file : option upload) (w : world) :
  (file = None -> load_document E file w = (Returns (lit "请上传文档"), w)) /\
  (exists s w', load_document E file w = (Returns s, w')) /\
  (forall f, file = Some f ->
     exists delta,
       snd (load_document E file w) = w ++ delta /\
       forallb (reader_event (str_of (upload_name f))) delta = true) /\
  api_attempts (snd (load_document E file w)) = api_attempts w /\
  gateway_calls (snd (load_document E file w)) = gateway_calls w.
Proof.
  assert (Hlogs : forall f, file = Some f ->
            exists delta, snd (load_document E file w) = w ++ delta /\
              forallb (reader_event (str_of (upload_name f))) delta = true).
  { intros f ->; unfold load_document.
    destruct (negb (upload_truth f)).
    - exists []; rewrite app_nil_r; split; reflexivity.
    - apply parse_document_logs. }
  split; [intros ->; reflexivity|].
  split; [|split; [exact Hlogs|]].
  - destruct file as [f|]; [|eexists; eexists; reflexivity].
    unfold load_document; destruct (negb (upload_truth f));
      [eexists; eexists; reflexivity | apply parse_document_total].
  - destruct file as [f|]; [|split; reflexivity].
    destruct (Hlogs f eq_refl) as (delta & -> & HP).
    destruct (reader_events_no_api _ _ HP) as [Ha Hg].
    rewrite api_attempts_app, gateway_calls_app, Ha, Hg; lia.
Qed.

Lemma load_document_is_safe_witness :
  load_document hostile_env None [] = (Returns (lit "请上传文档"), []) /\
  exists delta,
    snd (load_document hostile_env (Some (mkUpload true (PyStr (lit "a.pdf")))) [])
    = [] ++ delta /\
    forallb (reader_event (str_of (PyStr (lit "a.pdf")))) delta = true.
Proof.
  split.
  - exact (proj1 (load_document_is_safe hostile_env None []) eq_refl).
  - exact (proj1 (proj2 (proj2 (load_document_is_safe hostile_env
                    (Some (mkUpload true (PyStr (lit "a.pdf")))) [])))
             (mkUpload true (PyStr (lit "a.pdf"))) eq_refl).
Defined.

(** X16. After a load that ended in one of the three fixed messages (no
    upload, empty path, unsupported format), the message stands in the
    document field; a click on summary, key information or format
    conversion then reports a text that is too short, and so does a
    click on question answering when a question is given.  None of them
    calls the gateway. *)
Theorem failed_load_is_too_short_for_tasks
    (E : env) (gw : pystr -> Z -> M pystr) (s : form) (w w1 : world) (m : pystr) :
  load_document E (file_input s) w = (Returns m, w1) ->
  In m [lit "请上传文档"; lit "文件路径为空"; unsupported_format_message] ->
  let loaded := set_doc_content s m in
  clicks E gw [load_btn; summary_btn] s w
  = (Returns (set_result_output loaded (lit "文档内容过短（少于50字），无法生成摘要")), w1) /\
  clicks E gw [load_btn; key_info_btn] s w
  = (Returns (set_result_output loaded (lit "文档内容过短（少于50字），无法提取关键信息")), w1) /\
  clicks E gw [load_btn; format_btn] s w
  = (Returns (set_result_output loaded (lit "文本过短（少于50字），无法转换格式")), w1) /\
  (question_input s <> [] ->
   clicks E gw [load_btn; qa_btn] s w
   = (Returns (set_result_output loaded (lit "文档内容过短（少于50字），无法回答问题")), w1)).
Proof.
  intros Hload Hm loaded; subst loaded.
  pose proof (fixed_messages_are_short Hm) as Hshort.
  repeat apply conj; [| | |intros Hq];
    rewrite (@clicks_after_load E gw _ s w w1 m Hload); unfold click, bind;
    cbn [doc_content question_input target_format set_doc_content].
  - rewrite generate_summary_short by assumption; reflexivity.
  - rewrite extract_key_info_short by assumption; reflexivity.
  - rewrite format_conversion_short by assumption; reflexivity.
  - rewrite document_qa_short by assumption; reflexivity.
Qed.

Lemma failed_load_is_too_short_for_tasks_witness :
  let s := sample_form (Some (mkUpload true (PyStr (lit "notes.md")))) in
  clicks hostile_env (stub_gateway sample_reply) [load_btn; summary_btn] s []
  = (Returns (set_result_output (set_doc_content s unsupported_format_message)
                (lit "文档内容过短（少于50字），无法生成摘要")), []).
Proof.
  intros s.
  assert (Hload : load_document hostile_env (file_input s) []
                  = (Returns unsupported_format_message, []))
    by (vm_compute; reflexivity).
  exact (proj1 (@failed_load_is_too_short_for_tasks hostile_env
                  (stub_gateway sample_reply) s [] [] unsupported_format_message
                  Hload (or_intror (or_intror (or_introl eq_refl))))).
Defined.

(** X17. What [load_document] returned is what the task functions get,
    be it the text of a document or an error message: a result of at
    least 10 characters is sent to the gateway for translation, one of at
    least 50 for a summary.  The unsupported-format message has 43
    characters, so after loading a file of an unsupported format a click
    on translate asks the model to translate that message. *)
Theorem load_result_is_treated_as_document
    (E : env) (gw : pystr -> Z -> M pystr) (s : form) (w w1 : world) (m : pystr) :
  load_document E (file_input s) w = (Returns m, w1) ->
  let loaded := set_doc_content s m in
  (In (target_lang s) target_lang_choices -> 10 <= len m ->
   clicks E gw [load_btn; translate_btn] s w
   = bind (gw (translate_before (target_lang s) ++ slice_to 2000 m ++ translate_after)
              2000%Z)
          (fun v => ret (set_result_output loaded v)) w1) /\
  (50 <= len m ->
   clicks E gw [load_btn; summary_btn] s w
   = bind (gw (summary_before ++ slice_to 3000 m ++ summary_after) 300%Z)
          (fun v => ret (set_result_output loaded v)) w1) /\
  (In (target_lang s) target_lang_choices -> m = unsupported_format_message ->
   clicks E gw [load_btn; translate_btn] s w
   = bind (gw (translate_before (target_lang s) ++ unsupported_format_message
                 ++ translate_after) 2000%Z)
          (fun v => ret (set_result_output loaded v)) w1).
Proof.
  intros Hload loaded; subst loaded.
  assert (Htr : In (target_lang s) target_lang_choices -> 10 <= len m ->
            clicks E gw [load_btn; translate_btn] s w
            = bind (gw (translate_before (target_lang s) ++ slice_to 2000 m
                          ++ translate_after) 2000%Z)
                   (fun v => ret (set_result_output (set_doc_content s m) v)) w1).
  { intros Hin Hlen.
    rewrite (@clicks_after_load E gw _ s w w1 m Hload); unfold click.
    cbn [doc_content target_lang set_doc_content].
    rewrite translate_text_valid by assumption; reflexivity. }
  split; [exact Htr|]; split.
  - intros Hlen.
    rewrite (@clicks_after_load E gw _ s w w1 m Hload); unfold click.
    cbn [doc_content set_doc_content].
    rewrite generate_summary_valid by assumption; reflexivity.
  - intros Hin ->.
    assert (H10 : 10 <= len unsupported_format_message)
      by (apply Nat.leb_le; vm_compute; reflexivity).
    assert (H2000 : len unsupported_format_message <= 2000)
      by (apply Nat.leb_le; vm_compute; reflexivity).
    rewrite (Htr Hin H10), slice_to_all by assumption; reflexivity.
Qed.

Lemma load_result_is_treated_as_document_witness :
  let s := sample_form (Some (mkUpload true (PyStr (lit "notes.md")))) in
  clicks hostile_env (stub_gateway sample_reply) [load_btn; translate_btn] s []
  = bind (stub_gateway sample_reply
            (translate_before (target_lang s) ++ unsupported_format_message
               ++ translate_after) 2000%Z)
         (fun v => ret (set_result_output
                          (set_doc_content s unsupported_format_message) v)) [].
Proof.
  intros s.
  assert (Hload : load_document hostile_env (file_input s) []
                  = (Returns unsupported_format_message, []))
    by (vm_compute; reflexivity).
  assert (Hin : In (target_lang s) target_lang_choices) by (left; reflexivity).
  exact (proj2 (proj2 (@load_result_is_treated_as_document hostile_env
                  (stub_gateway sample_reply) s [] [] unsupported_format_message
                  Hload)) Hin eq_refl).
Defined.

(** X18. Every value the two dropdowns offer, their initial values
    included, is on the allow-list of its task function: with a language
    chosen from the dropdown and a document of at least 10 characters, a
    click on translate calls the gateway, and likewise for a format and
    a document of at least 50 characters.  The error for an unsupported
    target cannot be reached from the form. *)
Theorem dropdown_values_are_supported
    (E : env) (gw : pystr -> Z -> M pystr) (s : form) :
  In target_lang_value target_lang_choices /\
  In target_format_value target_format_choices /\
  (In (target_lang s) target_lang_choices -> 10 <= len (doc_content s) ->
   click E gw translate_btn s
   = bind (gw (translate_before (target_lang s) ++ slice_to 2000 (doc_content s)
                 ++ translate_after) 2000%Z)
          (fun v => ret (set_result_output s v))) /\
  (In (target_format s) target_format_choices -> 50 <= len (doc_content s) ->
   click E gw format_btn s
   = bind (gw (convert_before (target_format s) ++ slice_to 3000 (doc_content s)
                 ++ convert_after) 1000%Z)
          (fun v => ret (set_result_output s v))).
Proof.
  split; [left; reflexivity|]. split; [left; reflexivity|]. split.
  - intros Hin Hlen; unfold click.
    rewrite translate_text_valid by assumption; reflexivity.
  - intros Hin Hlen; unfold click.
    rewrite format_conversion_valid by assumption; reflexivity.
Qed.

Lemma dropdown_values_are_supported_witness :
  let s := mkForm None [] (lit "德文") (lit "编号列表") sample_text [] in
  click hostile_env (stub_gateway sample_reply) translate_btn s
  = bind (stub_gateway sample_reply
            (translate_before (lit "德文") ++ slice_to 2000 sample_text
               ++ translate_after) 2000%Z)
         (fun v => ret (set_result_output s v)).
Proof.
  intros s.
  assert (Hin : In (target_lang s) target_lang_choices)
    by (apply str_in_In; vm_compute; reflexivity).
  assert (H10 : 10 <= len (doc_content s))
    by (apply Nat.leb_le; vm_compute; reflexivity).
  exact (proj1 (proj2 (proj2 (dropdown_values_are_supported hostile_env
                  (stub_gateway sample_reply) s))) Hin H10).
Defined.

(** ** How often the gateway is called *)

Section GatewayCalls.

Variable E : env.
Variable reply : pystr.

Lemma snd_bind_ret {A B} (m : M A) (g : A -> B) (w : world) :
  snd (bind m (fun a => ret (g a)) w) = snd (m w).
Proof. unfold bind, ret; destruct (m w) as [[a | e] w1]; reflexivity. Qed.

Lemma stub_called_once (prompt : pystr) (budget : Z) (w : world) :
  gateway_calls (snd (stub_gateway reply prompt budget w)) = gateway_calls w + 1.
Proof. unfold stub_gateway; simpl; rewrite gateway_calls_app; reflexivity. Qed.

Lemma load_document_no_gateway (file : option upload) (w : world) :
  gateway_calls (snd (load_document E file w)) = gateway_calls w.
Proof.
  destruct file as [f|]; [|reflexivity].
  unfold load_document; destruct (negb (upload_truth f)); [reflexivity|].
  destruct (parse_document_logs E (upload_name f) w) as (delta & -> & HP).
  destruct (reader_events_no_api _ _ HP) as [_ Hg].
  rewrite gateway_calls_app, Hg; lia.
Qed.

Lemma click_calls_at_most_once (b : button) (s : form) (w : world) :
  gateway_calls (snd (click E (stub_gateway reply) b s w)) <= gateway_calls w + 1.
Proof.
  destruct b; unfold click; rewrite snd_bind_ret.
  - rewrite load_document_no_gateway; lia.
  - unfold generate_summary; destruct (len (doc_content s) <? 50);
      [simpl; lia | rewrite stub_called_once; lia].
  - unfold extract_key_info; destruct (len (doc_content s) <? 50);
      [simpl; lia | rewrite stub_called_once; lia].
  - unfold document_qa; destruct (len (question_input s) =? 0); [simpl; lia|].
    destruct (len (doc_content s) <? 50);
      [simpl; lia | rewrite stub_called_once; lia].
  - unfold translate_text; destruct (len (doc_content s) <? 10); [simpl; lia|].
    destruct (negb (str_in (target_lang s) supported_langs));
      [simpl; lia | rewrite stub_called_once; lia].
  - unfold format_conversion; destruct (len (doc_content s) <? 50); [simpl; lia|].
    destruct (negb (str_in (target_format s) supported_formats));
      [simpl; lia | rewrite stub_called_once; lia].
Qed.

End GatewayCalls.

(** X19. A click calls the gateway at most once, and a click on load
    not at all: after any sequence of clicks on the form, the gateway was
    called at most as often as there were clicks. *)
Theorem clicks_call_gateway_at_most_once_each
    (E : env) (reply : pystr) (bs : list button) (s : form) (w : world) :
  gateway_calls (snd (clicks E (stub_gateway reply) bs s w))
  <= gateway_calls w + List.length bs /\
  gateway_calls (snd (click E (stub_gateway reply) load_btn s w)) = gateway_calls w.
Proof.
  split.
  - revert s w; induction bs as [|b rest IH]; intros s w; [simpl; lia|].
    cbn [clicks List.length]; unfold bind.
    pose proof (click_calls_at_most_once E reply b s w) as Hb.
    destruct (click E (stub_gateway reply) b s w) as [[s' | e] w1]; simpl in Hb.
    + specialize (IH s' w1); lia.
    + simpl; lia.
  - unfold click; rewrite snd_bind_ret; apply load_document_no_gateway.
Qed.

(** ** The prompt and the instruction text, in numbers *)

(** The prompt of [document_qa] is not a fixed instruction text plus
    the truncated document: it embeds the question whole.  On a text of 4000 characters and a question of 6, the
    prompt has 3074 characters, more than the budget plus the 68
    characters of the template; and no constant bounds the prompts of
    [document_qa] beyond the budget.  For [format_conversion] the
    instruction text varies with the format: 3042 characters for
    Markdown, 3036 for a table, on the same text. *)
Lemma qa_prompt_has_no_fixed_instruction_length :
  (exists prompt,
     (forall gw, document_qa gw sample_long_text sample_question = gw prompt 500%Z) /\
     len (qa_before []) + len qa_after = 68 /\
     len prompt = 3074 /\ 3000 + 68 < len prompt) /\
  ~ (exists L,
       forall text question prompt,
         question <> [] -> 50 <= len text ->
         (forall gw, document_qa gw text question = gw prompt 500%Z) ->
         len prompt <= 3000 + L) /\
  (exists p1 p2,
     (forall gw, format_conversion gw sample_long_text (lit "Markdown") = gw p1 1000%Z) /\
     (forall gw, format_conversion gw sample_long_text (lit "表格") = gw p2 1000%Z) /\
     len p1 = 3042 /\ len p2 = 3036).
Proof.
  split; [|split].
  - exists (qa_before sample_question ++ slice_to 3000 sample_long_text ++ qa_after).
    split; [|split; [|split]].
    + intros gw.
      exact (@document_qa_valid gw sample_long_text sample_question
               sample_question_given sample_long_text_valid).
    + vm_compute; reflexivity.
    + vm_compute; reflexivity.
    + apply Nat.ltb_lt; vm_compute; reflexivity.
  - intros [L H].
    assert (Hq : repeat 63%N (S L) <> []) by discriminate.
    specialize (H sample_long_text (repeat 63%N (S L))
                  (qa_before (repeat 63%N (S L)) ++ slice_to 3000 sample_long_text
                     ++ qa_after)
                  Hq sample_long_text_valid
                  (fun gw => @document_qa_valid gw sample_long_text
                               (repeat 63%N (S L)) Hq sample_long_text_valid)).
    rewrite !len_app, len_slice_to in H.
    pose proof (qa_instruction_length (repeat 63%N (S L))) as Hlen.
    replace (len sample_long_text) with 4000 in H by (vm_compute; reflexivity).
    replace (len (repeat 63%N (S L))) with (S L) in Hlen
      by (unfold len; rewrite repeat_length; reflexivity).
    lia.
  - exists (convert_before (lit "Markdown") ++ slice_to 3000 sample_long_text
              ++ convert_after),
           (convert_before (lit "表格") ++ slice_to 3000 sample_long_text
              ++ convert_after).
    split; [|split; [|split]].
    + intros gw; apply format_conversion_valid;
        [exact sample_long_text_valid | apply str_in_In; vm_compute; reflexivity].
    + intros gw; apply format_conversion_valid;
        [exact sample_long_text_valid | exact table_supported].
    + vm_compute; reflexivity.
    + vm_compute; reflexivity.
Qed.

(** C1. For each task function and each input that
    passes its validation, the prompt handed to the gateway is the
    instruction text around the first [min (len text) budget] characters
    of the document text (budget 3000, and 2000 for [translate_text]),
    and its length is that of the instruction text plus
    [min (len text) budget].  The instruction text has 58 characters for
    [generate_summary], 60 for [extract_key_info] and 34 for
    [translate_text] with any of the six languages, and 34 and the name
    of the format, at most 8, for [format_conversion]: these prompts
    never exceed the budget plus 58, 60, 34 and 42.  For [document_qa]
    the instruction text holds the question, whole, and has 68
    characters and those of the question: the prompt has exactly
    [68 + len question + min (len text) 3000] characters. *)
Theorem prompt_embeds_truncated_text (text question target : pystr) :
  (50 <= len text ->
   exists prompt,
     truncated_into 3000 summary_before summary_after text prompt /\
     (forall gw, generate_summary gw text = gw prompt 300%Z) /\
     len summary_before + len summary_after = 58 /\
     len prompt <= 3000 + 58) /\
  (50 <= len text ->
   exists prompt,
     truncated_into 3000 key_info_before key_info_after text prompt /\
     (forall gw, extract_key_info gw text = gw prompt 500%Z) /\
     len key_info_before + len key_info_after = 60 /\
     len prompt <= 3000 + 60) /\
  (question <> [] -> 50 <= len text ->
   exists prompt,
     truncated_into 3000 (qa_before question) qa_after text prompt /\
     (forall gw, document_qa gw text question = gw prompt 500%Z) /\
     len (qa_before question) + len qa_after = 68 + len question /\
     len prompt = 68 + len question + Nat.min (len text) 3000) /\
  (In target supported_langs -> 10 <= len text ->
   exists prompt,
     truncated_into 2000 (translate_before target) translate_after text prompt /\
     (forall gw, translate_text gw text target = gw prompt 2000%Z) /\
     len (translate_before target) + len translate_after = 34 /\
     len prompt <= 2000 + 34) /\
  (In target supported_formats -> 50 <= len text ->
   exists prompt,
     truncated_into 3000 (convert_before target) convert_after text prompt /\
     (forall gw, format_conversion gw text target = gw prompt 1000%Z) /\
     len (convert_before target) + len convert_after = 34 + len target /\
     len target <= 8 /\
     len prompt <= 3000 + 42).
Proof.
  repeat apply conj.
  - intros H; eexists; split; [apply truncated_into_intro|].
    split; [intros gw; apply generate_summary_valid; assumption|].
    pose proof summary_instruction_length as Hi.
    split; [exact Hi|].
    destruct (truncated_into_intro 3000 summary_before summary_after text)
      as (_ & _ & Hb); lia.
  - intros H; eexists; split; [apply truncated_into_intro|].
    split; [intros gw; apply extract_key_info_valid; assumption|].
    pose proof key_info_instruction_length as Hi.
    split; [exact Hi|].
    destruct (truncated_into_intro 3000 key_info_before key_info_after text)
      as (_ & _ & Hb); lia.
  - intros Hq H; eexists; split; [apply truncated_into_intro|].
    split; [intros gw; apply document_qa_valid; assumption|].
    pose proof (qa_instruction_length question) as Hi.
    split; [exact Hi|].
    destruct (truncated_into_intro 3000 (qa_before question) qa_after text)
      as (_ & Hl & _).
    lia.
  - intros Hin H; eexists; split; [apply truncated_into_intro|].
    split; [intros gw; apply translate_text_valid; assumption|].
    pose proof (translate_instruction_length Hin) as Hi.
    split; [exact Hi|].
    destruct (truncated_into_intro 2000 (translate_before target) translate_after text)
      as (_ & _ & Hb); lia.
  - intros Hin H; eexists; split; [apply truncated_into_intro|].
    split; [intros gw; apply format_conversion_valid; assumption|].
    pose proof (convert_instruction_length target) as Hi.
    pose proof (supported_format_length Hin) as H8.
    split; [exact Hi|]. split; [exact H8|].
    destruct (truncated_into_intro 3000 (convert_before target) convert_after text)
      as (_ & _ & Hb); lia.
Qed.

Lemma prompt_embeds_truncated_text_witness :
  (exists prompt,
     truncated_into 3000 summary_before summary_after sample_long_text prompt /\
     (forall gw, generate_summary gw sample_long_text = gw prompt 300%Z) /\
     len summary_before + len summary_after = 58 /\
     len prompt <= 3000 + 58) /\
  (exists prompt,
     truncated_into 3000 key_info_before key_info_after sample_long_text prompt /\
     (forall gw, extract_key_info gw sample_long_text = gw prompt 500%Z) /\
     len key_info_before + len key_info_after = 60 /\
     len prompt <= 3000 + 60) /\
  (exists prompt,
     truncated_into 3000 (qa_before sample_question) qa_after sample_long_text prompt /\
     (forall gw, document_qa gw sample_long_text sample_question = gw prompt 500%Z) /\
     len (qa_before sample_question) + len qa_after = 68 + len sample_question /\
     len prompt = 68 + len sample_question + Nat.min (len sample_long_text) 3000) /\
  (exists prompt,
     truncated_into 2000 (translate_before (lit "英文")) translate_after
       sample_long_text prompt /\
     (forall gw, translate_text gw sample_long_text (lit "英文") = gw prompt 2000%Z) /\
     len (translate_before (lit "英文")) + len translate_after = 34 /\
     len prompt <= 2000 + 34) /\
  (exists prompt,
     truncated_into 3000 (convert_before (lit "表格")) convert_after
       sample_long_text prompt /\
     (forall gw, format_conversion gw sample_long_text (lit "表格") = gw prompt 1000%Z) /\
     len (convert_before (lit "表格")) + len convert_after = 34 + len (lit "表格") /\
     len (lit "表格") <= 8 /\
     len prompt <= 3000 + 42).
Proof.
  assert (H10 : 10 <= len sample_long_text)
    by (apply Nat.leb_le; vm_compute; reflexivity).
  destruct (prompt_embeds_truncated_text sample_long_text sample_question (lit "英文"))
    as (H1 & H2 & H3 & H4 & _).
  destruct (prompt_embeds_truncated_text sample_long_text sample_question (lit "表格"))
    as (_ & _ & _ & _ & H5).
  split; [exact (H1 sample_long_text_valid)|].
  split; [exact (H2 sample_long_text_valid)|].
  split; [exact (H3 sample_question_given sample_long_text_valid)|].
  split; [exact (H4 english_supported H10)|].
  exact (H5 table_supported sample_long_text_valid).
Defined.

(** ** A key that is missing and a key that is rejected *)

(** A rejected key does not come back as a configuration error: with
    the key of the source, which the provider rejects, the client is
    built, and what comes back is the failure string of the [except]
    clause, not the configuration message. *)
Lemma rejected_key_is_not_a_configuration_error :
  call_model_api source_config hostile_env (lit "你好") 1024 []
  = (Returns (lit "API调用失败: " ++ exn_str AuthenticationError),
     [EvZhipuAI (lit "YOUR-API-KEY")]) /\
  lit "API调用失败: " ++ exn_str AuthenticationError <> missing_key_message /\
  ~ (forall C E prompt budget w e,
       truthy (ZHIPU_API_KEY C) = true ->
       zhipu_client E w (str_of (ZHIPU_API_KEY C)) = Raises e ->
       fst (call_model_api C E prompt budget w) = Returns missing_key_message).
Proof.
  assert (Hrun : call_model_api source_config hostile_env (lit "你好") 1024 []
                 = (Returns (lit "API调用失败: " ++ exn_str AuthenticationError),
                    [EvZhipuAI (lit "YOUR-API-KEY")]))
    by (vm_compute; reflexivity).
  assert (Hne : lit "API调用失败: " ++ exn_str AuthenticationError <> missing_key_message)
    by (vm_compute; discriminate).
  split; [exact Hrun|]. split; [exact Hne|].
  intros H.
  assert (Hkey : truthy (ZHIPU_API_KEY source_config) = true)
    by (vm_compute; reflexivity).
  specialize (H source_config hostile_env (lit "你好") 1024%Z []
                AuthenticationError Hkey eq_refl).
  rewrite Hrun in H; cbn [fst] in H.
  apply Hne.
  exact (f_equal (fun o : outcome pystr =>
                    match o with Returns s => s | Raises _ => [] end) H).
Qed.

(** C7. Without an API key ([None] or the empty
    string), [call_model_api] returns the configuration message and
    leaves the log as it was: no client is built and no request is sent.
    A key that is there is not checked: the client is built with it, and
    when the provider rejects it, at the construction of the client or
    at the request, the result is the failure marker followed by the
    provider's message, as for every other failure of the call.  In
    every case, for every prompt and budget, [call_model_api] returns a
    string and raises nothing. *)
Theorem missing_or_rejected_key_is_reported
    (C : config) (E : env) (prompt : pystr) (budget : Z) (w : world) :
  (truthy (ZHIPU_API_KEY C) = false ->
   call_model_api C E prompt budget w
   = (Returns (lit "请配置智谱开放平台API密钥（ZHIPU_API_KEY）"), w)) /\
  (truthy (ZHIPU_API_KEY C) = true ->
   exists rest,
     snd (call_model_api C E prompt budget w)
     = w ++ EvZhipuAI (str_of (ZHIPU_API_KEY C)) :: rest) /\
  (truthy (ZHIPU_API_KEY C) = true ->
   forall e,
     zhipu_client E w (str_of (ZHIPU_API_KEY C)) = Raises e \/
     (exists c,
        zhipu_client E w (str_of (ZHIPU_API_KEY C)) = Returns c /\
        chat_create E (w ++ [EvZhipuAI (str_of (ZHIPU_API_KEY C))]) c
          (request_of C prompt budget) = Raises e) ->
     exists w',
       call_model_api C E prompt budget w
       = (Returns (lit "API调用失败: " ++ exn_str e), w')) /\
  (exists s w', call_model_api C E prompt budget w = (Returns s, w')).
Proof.
  repeat apply conj.
  - intros Hkey; rewrite call_model_api_no_key by assumption; reflexivity.
  - intros Hkey; rewrite call_model_api_with_key by assumption.
    rewrite snd_try_except_ret.
    unfold call_model_api_body, bind, ZhipuAI, chat_completions_create, extcall.
    destruct (zhipu_client E w (str_of (ZHIPU_API_KEY C))) as [c | e];
      [|exists []; reflexivity].
    destruct (chat_create E _ c _) as [resp | e];
      [|eexists; simpl; rewrite <- app_assoc; reflexivity].
    destruct (choices resp) as [|first rest]; eexists; simpl;
      rewrite <- app_assoc; reflexivity.
  - intros Hkey e [H | (c & H1 & H2)].
    + exists (w ++ [EvZhipuAI (str_of (ZHIPU_API_KEY C))]).
      apply call_model_api_caught; [assumption|].
      apply body_client_fails; assumption.
    + exists ((w ++ [EvZhipuAI (str_of (ZHIPU_API_KEY C))])
                ++ [EvChatCreate c (request_of C prompt budget)]).
      apply call_model_api_caught; [assumption|].
      apply body_create_fails; assumption.
  - apply call_model_api_total.
Qed.

Lemma missing_or_rejected_key_is_reported_witness :
  let prompt := lit "你好" in
  call_model_api (mkConfig PyNone (lit "glm-4-flash-250414")) hostile_env prompt 1024 []
  = (Returns (lit "请配置智谱开放平台API密钥（ZHIPU_API_KEY）"), []) /\
  call_model_api (mkConfig (PyStr []) (lit "glm-4-flash-250414")) hostile_env prompt 1024 []
  = (Returns (lit "请配置智谱开放平台API密钥（ZHIPU_API_KEY）"), []) /\
  (exists rest,
     snd (call_model_api source_config hostile_env prompt 1024 [])
     = [] ++ EvZhipuAI (str_of (ZHIPU_API_KEY source_config)) :: rest) /\
  (exists w', call_model_api source_config hostile_env prompt 1024 []
              = (Returns (lit "API调用失败: " ++ exn_str AuthenticationError), w')).
Proof.
  intros prompt.
  assert (Hkey : truthy (ZHIPU_API_KEY source_config) = true)
    by (vm_compute; reflexivity).
  split; [|split; [|split]].
  - exact (proj1 (missing_or_rejected_key_is_reported
                    (mkConfig PyNone (lit "glm-4-flash-250414"))
                    hostile_env prompt 1024 []) eq_refl).
  - exact (proj1 (missing_or_rejected_key_is_reported
                    (mkConfig (PyStr []) (lit "glm-4-flash-250414"))
                    hostile_env prompt 1024 []) eq_refl).
  - exact (proj1 (proj2 (missing_or_rejected_key_is_reported
                           source_config hostile_env prompt 1024 [])) Hkey).
  - exact (proj1 (proj2 (proj2 (missing_or_rejected_key_is_reported
                           source_config hostile_env prompt 1024 [])))
             Hkey AuthenticationError (or_introl eq_refl)).
Defined.
